(** * CSVDateSplitter: date normalisation and range filtering

    A shallow embedding of the core of [src/CSVDateSplitter.js]: the
    functions [validateDates], [processFile], [processCSVFile] with its
    two handlers, [transferToExcel], [isValidDate] and [parseDate],
    together with the parts of the ECMAScript run time they call
    ([String.prototype.trim], [toLowerCase], [split], the [Date]
    constructors, [setHours] and the relational operators on dates).
    The component state is a record, a handler is a computation in a state
    monad that also logs what the handler hands to the outside (the
    decoder it starts, the file it saves, the alert).  The second part
    adds the two change handlers, the condition of the button and the
    handlers of [processExcelFile], whose load handler may throw.

    Strings are sequences of ASCII characters.  Time values are integers
    (milliseconds since the epoch); [None] stands for NaN.  What ECMAScript
    leaves to the engine ([Date.parse] beyond its mandatory format, the
    local time zone, IEEE arithmetic of [Number]) is a parameter of the
    development, see [HostDate] and [HostNumber]. *)

From Stdlib Require Import ZArith Lia Ascii String List Bool.
From stdpp Require Import base option list strings pretty gmap.

Local Open Scope string_scope.
Local Open Scope Z_scope.

(** ** String built-ins *)

Module JSString.

Definition is_upper (c : ascii) : bool :=
  ((65 <=? nat_of_ascii c) && (nat_of_ascii c <=? 90))%nat.

Definition lower_char (c : ascii) : ascii :=
  if is_upper c then ascii_of_nat (nat_of_ascii c + 32) else c.

(** [s.toLowerCase()] *)
Fixpoint toLowerCase (s : string) : string :=
  match s with
  | EmptyString => EmptyString
  | String c s' => String (lower_char c) (toLowerCase s')
  end.

Fixpoint trimStart (s : string) : string :=
  match s with
  | EmptyString => EmptyString
  | String c s' => if Ascii.is_space c then trimStart s' else s
  end.

Fixpoint trimEnd (s : string) : string :=
  match s with
  | EmptyString => EmptyString
  | String c s' =>
      match trimEnd s' with
      | EmptyString => if Ascii.is_space c then EmptyString
                       else String c EmptyString
      | t => String c t
      end
  end.

(** [s.trim()] *)
Definition trim (s : string) : string := trimEnd (trimStart s).

(** [s.split(sep)] for a separator of one character: the list is never
    empty, and [n] occurrences of the separator give [n + 1] parts. *)
Fixpoint split (sep : ascii) (s : string) : list string :=
  match s with
  | EmptyString => [EmptyString]
  | String c s' =>
      if Ascii.eqb c sep then EmptyString :: split sep s'
      else match split sep s' with
           | part :: parts => String c part :: parts
           | [] => [String c EmptyString]
           end
  end.

(** Decimal digits, as read by [StringToNumber] and by date parsers. *)
Definition digit_of (c : ascii) : option Z :=
  Z.of_nat <$> Ascii.is_nat c.

Fixpoint digits_go (acc : Z) (s : string) : option Z :=
  match s with
  | EmptyString => Some acc
  | String c s' =>
      match digit_of c with
      | Some d => digits_go (10 * acc + d) s'
      | None => None
      end
  end.

(** The value of a non-empty string of decimal digits. *)
Definition DecimalDigits (s : string) : option Z :=
  match s with
  | EmptyString => None
  | _ => digits_go 0 s
  end.

(** White space only; no white space at the start; none at the end. *)
Fixpoint all_space (s : string) : bool :=
  match s with
  | EmptyString => true
  | String c s' => Ascii.is_space c && all_space s'
  end.

Definition starts_tight (s : string) : bool :=
  match s with
  | EmptyString => true
  | String c _ => negb (Ascii.is_space c)
  end.

Fixpoint ends_tight (s : string) : bool :=
  match s with
  | EmptyString => true
  | String c EmptyString => negb (Ascii.is_space c)
  | String _ s' => ends_tight s'
  end.

End JSString.

Import JSString.

(** ** ECMAScript day and time arithmetic (ECMA-262, 21.4.1) *)

Module DateTime.

Definition msPerDay : Z := 86400000.
Definition msPerHour : Z := 3600000.
Definition msPerMinute : Z := 60000.
Definition msPerSecond : Z := 1000.

Definition Day (t : Z) : Z := t / msPerDay.
Definition TimeWithinDay (t : Z) : Z := t mod msPerDay.

Definition DaysInYear (y : Z) : Z :=
  if negb (y mod 4 =? 0) then 365
  else if negb (y mod 100 =? 0) then 366
  else if negb (y mod 400 =? 0) then 365
  else 366.

Definition DayFromYear (y : Z) : Z :=
  365 * (y - 1970) + (y - 1969) / 4 - (y - 1901) / 100 + (y - 1601) / 400.

Definition TimeFromYear (y : Z) : Z := msPerDay * DayFromYear y.

(** The year of a day number: the largest [y] with [DayFromYear y <= d],
    found from an estimate that is off by at most one. *)
Definition YearFromDay (d : Z) : Z :=
  let y := 1970 + (400 * d) / 146097 in
  if d <? DayFromYear y then y - 1
  else if DayFromYear (y + 1) <=? d then y + 1
  else y.

Definition YearFromTime (t : Z) : Z := YearFromDay (Day t).

Definition InLeapYear (t : Z) : Z :=
  if DaysInYear (YearFromTime t) =? 366 then 1 else 0.

Definition DayWithinYear (t : Z) : Z :=
  Day t - DayFromYear (YearFromTime t).

(** Days of a year before month [m] (0-based), [leap] being 0 or 1. *)
Definition DaysBeforeMonth (leap m : Z) : Z :=
  match m with
  | 0 => 0
  | 1 => 31
  | 2 => 59 + leap
  | 3 => 90 + leap
  | 4 => 120 + leap
  | 5 => 151 + leap
  | 6 => 181 + leap
  | 7 => 212 + leap
  | 8 => 243 + leap
  | 9 => 273 + leap
  | 10 => 304 + leap
  | 11 => 334 + leap
  | _ => 365 + leap
  end.

(** Days of month [month] (1-based) of [year]. *)
Definition DaysInMonth (year month : Z) : Z :=
  let leap := if DaysInYear year =? 366 then 1 else 0 in
  DaysBeforeMonth leap month - DaysBeforeMonth leap (month - 1).

Definition MonthFromTime (t : Z) : Z :=
  let d := DayWithinYear t in
  let leap := InLeapYear t in
  if d <? 31 then 0
  else if d <? 59 + leap then 1
  else if d <? 90 + leap then 2
  else if d <? 120 + leap then 3
  else if d <? 151 + leap then 4
  else if d <? 181 + leap then 5
  else if d <? 212 + leap then 6
  else if d <? 243 + leap then 7
  else if d <? 273 + leap then 8
  else if d <? 304 + leap then 9
  else if d <? 334 + leap then 10
  else 11.

Definition DateFromTime (t : Z) : Z :=
  DayWithinYear t + 1 - DaysBeforeMonth (InLeapYear t) (MonthFromTime t).

Definition MakeTime (hour min sec ms : Z) : Z :=
  hour * msPerHour + min * msPerMinute + sec * msPerSecond + ms.

(** [MakeDay]: months outside 0..11 carry into the year, and the day of
    the month is added as a plain offset, so it carries into the
    following months. *)
Definition MakeDay (year month date : Z) : Z :=
  let ym := year + month / 12 in
  let mn := month mod 12 in
  let leap := if DaysInYear ym =? 366 then 1 else 0 in
  DayFromYear ym + DaysBeforeMonth leap mn + date - 1.

Definition MakeDate (day time : Z) : Z := day * msPerDay + time.

(** [MakeFullYear]: years 0..99 are read as 1900..1999. *)
Definition MakeFullYear (year : Z) : Z :=
  if (0 <=? year) && (year <=? 99) then 1900 + year else year.

Definition maxTime : Z := 8640000000000000.

Definition TimeClip (t : Z) : option Z :=
  if maxTime <? Z.abs t then None else Some t.

(** A calendar day as (year, month 1..12, day of month). *)
Definition civil (t : Z) : Z * Z * Z :=
  (YearFromTime t, MonthFromTime t + 1, DateFromTime t).

End DateTime.

Import DateTime.

(** ** What the engine decides *)

(** [Date_parse s] is the time value [Date.parse] gives for [s], [None]
    for NaN; beyond the ISO format its reading of a string is
    implementation-defined.  [LocalTZA t isUTC] is the offset of local
    time from UTC in milliseconds (ECMA-262, 10th edition, 20.3.1.7):
    with [isUTC] the offset in force at the instant [t], without it the
    offset by which the engine reads the local time [t].  The two differ
    around a change of offset: a local time that a change skips, or that
    occurs twice, is read with the offset in force before the change. *)
Class HostDate := {
  Date_parse : string -> option Z;
  LocalTZA : Z -> bool -> Z
}.

(** Number values.  [Number s] is [StringToNumber]; [num_of_Z z] is the
    Number for the integer [z]; [ToIntegerOrInfinity x] is the truncation
    of a finite [x] and [None] when [x] is NaN or infinite. *)
Class HostNumber := {
  number : Type;
  Number : string -> number;
  num_of_Z : Z -> number;
  num_lt : number -> number -> bool;
  num_add : number -> number -> number;
  num_sub : number -> number -> number;
  ToIntegerOrInfinity : number -> option Z
}.

(** Integers up to 2^53 are Number values, and arithmetic on them is
    exact. *)
Definition safe (z : Z) : Prop := Z.abs z <= 2 ^ 53.

Class HostNumberLaws (HN : HostNumber) : Prop := {
  Number_digits : forall s z,
    DecimalDigits s = Some z -> safe z -> Number s = num_of_Z z;
  num_lt_safe : forall a b,
    safe a -> safe b -> num_lt (num_of_Z a) (num_of_Z b) = (a <? b);
  num_add_safe : forall a b,
    safe a -> safe b -> safe (a + b) ->
    num_add (num_of_Z a) (num_of_Z b) = num_of_Z (a + b);
  num_sub_safe : forall a b,
    safe a -> safe b -> safe (a - b) ->
    num_sub (num_of_Z a) (num_of_Z b) = num_of_Z (a - b);
  ToIntegerOrInfinity_safe : forall a,
    safe a -> ToIntegerOrInfinity (num_of_Z a) = Some a
}.

(** ** Date objects *)

(** A [Date] object holds a time value or NaN. *)
Record Date := mkDate { DateValue : option Z }.

(** [a < b] on dates compares the time values; a comparison with NaN is
    false. *)
Definition date_lt (a b : Date) : bool :=
  match DateValue a, DateValue b with
  | Some x, Some y => x <? y
  | _, _ => false
  end.

Definition date_gt (a b : Date) : bool := date_lt b a.

(** ** Rows, component state and effects *)

Abbreviation Row := (gmap string string).

Record File := { name : string }.

Record ParseResult := { data : list Row; meta_fields : list string }.

Record SkippedRow := { rowNumber : nat; reason : string }.

Record State := {
  file : option File;
  startDate : string;
  endDate : string;
  dateColumn : string;
  error : string;
  processing : bool;
  processedCount : nat;
  skippedCount : nat;
  skippedRows : list SkippedRow;
  totalRows : nat
}.

(** What a handler does besides updating the state. *)
Inductive Effect :=
| PapaParse (f : File)
| ReadAsArrayBuffer (f : File)
| SaveAs (sheet : list Row) (filename : string)
| Alert (message : string)
| ConsoleError (message : string).

Record World := { st : State; fx : list Effect }.

(** Handlers run in a state monad over [World]. *)
Definition M (A : Type) : Type := World -> A * World.

#[global] Instance M_ret : MRet M := fun A a w => (a, w).

#[global] Instance M_bind : MBind M :=
  fun A B k m w => let '(a, w') := m w in k a w'.

Definition get : M State := fun w => (st w, w).

Definition modify (f : State -> State) : M unit :=
  fun w => (tt, {| st := f (st w); fx := fx w |}).

Definition emit (e : Effect) : M unit :=
  fun w => (tt, {| st := st w; fx := fx w ++ [e] |}).

Definition exec {A} (m : M A) (w : World) : World := snd (m w).

Definition setError (v : string) : M unit :=
  modify (fun s =>
    {| file := file s; startDate := startDate s; endDate := endDate s;
       dateColumn := dateColumn s; error := v; processing := processing s;
       processedCount := processedCount s; skippedCount := skippedCount s;
       skippedRows := skippedRows s; totalRows := totalRows s |}).

Definition setProcessing (v : bool) : M unit :=
  modify (fun s =>
    {| file := file s; startDate := startDate s; endDate := endDate s;
       dateColumn := dateColumn s; error := error s; processing := v;
       processedCount := processedCount s; skippedCount := skippedCount s;
       skippedRows := skippedRows s; totalRows := totalRows s |}).

Definition setProcessedCount (v : nat) : M unit :=
  modify (fun s =>
    {| file := file s; startDate := startDate s; endDate := endDate s;
       dateColumn := dateColumn s; error := error s;
       processing := processing s;
       processedCount := v; skippedCount := skippedCount s;
       skippedRows := skippedRows s; totalRows := totalRows s |}).

Definition setSkippedCount (v : nat) : M unit :=
  modify (fun s =>
    {| file := file s; startDate := startDate s; endDate := endDate s;
       dateColumn := dateColumn s; error := error s;
       processing := processing s;
       processedCount := processedCount s; skippedCount := v;
       skippedRows := skippedRows s; totalRows := totalRows s |}).

Definition setSkippedRows (v : list SkippedRow) : M unit :=
  modify (fun s =>
    {| file := file s; startDate := startDate s; endDate := endDate s;
       dateColumn := dateColumn s; error := error s;
       processing := processing s;
       processedCount := processedCount s; skippedCount := skippedCount s;
       skippedRows := v; totalRows := totalRows s |}).

Definition setTotalRows (v : nat) : M unit :=
  modify (fun s =>
    {| file := file s; startDate := startDate s; endDate := endDate s;
       dateColumn := dateColumn s; error := error s;
       processing := processing s;
       processedCount := processedCount s; skippedCount := skippedCount s;
       skippedRows := skippedRows s; totalRows := v |}).

(** [!s] for a string: only the empty string is falsy. *)
Definition falsy (s : string) : bool :=
  match s with
  | EmptyString => true
  | _ => false
  end.

(** [!v] for a value that is a string or [undefined]. *)
Definition not_ (v : option string) : bool :=
  match v with
  | None => true
  | Some s => falsy s
  end.

(** [data.filter((row, index) => ...)] with a callback that updates
    variables of the enclosing function: the elements are visited in
    order, each with its index, and the updates are threaded through. *)
Fixpoint filter_from {A V : Type} (callback : A -> nat -> V -> bool * V)
    (index : nat) (l : list A) (s : V) : list A * V :=
  match l with
  | [] => ([], s)
  | x :: l' =>
      let '(keep, s1) := callback x index s in
      let '(kept, s2) := filter_from callback (S index) l' s1 in
      (if keep then x :: kept else kept, s2)
  end.

Definition Array_filter {A V : Type} (callback : A -> nat -> V -> bool * V)
    (l : list A) (s : V) : list A * V :=
  filter_from callback 0%nat l s.

(** The local variables of [transferToExcel] that its filter callback
    updates. *)
Record Locals := {
  processed : nat;
  skipped : nat;
  skippedRowsLocal : list SkippedRow
}.

Definition quote : string := String "034"%char EmptyString.
Definition newline : string := String "010"%char EmptyString.

Section Component.

Context {HD : HostDate} {HN : HostNumber}.

Definition LocalTime (t : Z) : Z := t + LocalTZA t true.
Definition UTC (t : Z) : Z := t - LocalTZA t false.

(** [new Date(s)] for a string [s] *)
Definition Date_of_string (s : string) : Date :=
  mkDate (Date_parse s ≫= TimeClip).

(** [new Date(year, month, day)]: the fields are truncated to integers,
    NaN or an infinite field gives an invalid date, and the fields are read
    in local time. *)
Definition Date_of_fields (year month day : number) : Date :=
  mkDate
    match ToIntegerOrInfinity year, ToIntegerOrInfinity month,
          ToIntegerOrInfinity day with
    | Some y, Some m, Some dt =>
        TimeClip (UTC (MakeDate (MakeDay (MakeFullYear y) m dt)
                                (MakeTime 0 0 0 0)))
    | _, _, _ => None
    end.

(** [d.setHours(hour, min, sec, ms)], as the date it leaves in [d] *)
Definition setHours (d : Date) (hour min sec ms : Z) : Date :=
  mkDate (t ← DateValue d;
          TimeClip (UTC (MakeDate (Day (LocalTime t))
                                  (MakeTime hour min sec ms)))).

Definition isValidDate (date : Date) : bool :=
  match DateValue date with
  | Some _ => true
  | None => false
  end.

Definition parseDate (dateString : option string) : option Date :=
  match dateString with
  | None => None
  | Some dateString =>
      if falsy dateString then None
      else
        let parsedDate := Date_of_string dateString in
        if isValidDate parsedDate then Some parsedDate
        else
          let parts := split "/" dateString in
          match Number <$> parts with
          | [month; day; year] =>
              let year :=
                if num_lt year (num_of_Z 100) then num_add year (num_of_Z 2000)
                else year in
              let parsedDate :=
                Date_of_fields year (num_sub month (num_of_Z 1)) day in
              if isValidDate parsedDate then Some parsedDate else None
          | _ => None
          end
  end.

Definition resetCountsAndData : M unit :=
  setProcessedCount 0;;
  setSkippedCount 0;;
  setSkippedRows [];;
  setTotalRows 0.

Definition validateDates : M bool :=
  s ← get;
  if falsy (startDate s) || falsy (endDate s) then
    setError "Please select both start and end dates.";;
    mret false
  else if date_lt (Date_of_string (endDate s)) (Date_of_string (startDate s))
  then
    setError "End Date cannot be earlier than Start Date.";;
    mret false
  else mret true.

(** The callback of [data.filter] in [transferToExcel]. *)
Definition keepRow (actualDateColumn : string) (start end_ : Date)
    (row : Row) (index : nat) (l : Locals) : bool * Locals :=
  let dateString := row !! actualDateColumn in
  let rowDate := parseDate dateString in
  if match rowDate with
     | None => true
     | Some rowDate => date_lt rowDate start || date_gt rowDate end_
     end
  then
    (false,
     {| processed := processed l;
        skipped := skipped l + 1;
        skippedRowsLocal :=
          skippedRowsLocal l ++
          [{| rowNumber := index + 2;
              reason := "Date out of range or invalid format" |}] |})
  else
    (true,
     {| processed := processed l + 1;
        skipped := skipped l;
        skippedRowsLocal := skippedRowsLocal l |}).

Definition range_start (startDate : string) : Date :=
  setHours (Date_of_string startDate) 0 0 0 0.

Definition range_end (endDate : string) : Date :=
  setHours (Date_of_string endDate) 23 59 59 999.

Definition transferToExcel (data : list Row) (actualDateColumn : string)
    : M unit :=
  s ← get;
  let start := range_start (startDate s) in
  let end_ := range_end (endDate s) in
  let '(validDateRows, l) :=
    Array_filter (keepRow actualDateColumn start end_) data
      {| processed := 0; skipped := 0; skippedRowsLocal := [] |} in
  setProcessedCount (processed l);;
  setSkippedCount (skipped l);;
  setSkippedRows (skippedRowsLocal l);;
  if (length validDateRows =? 0)%nat then
    setError "No valid data found within the specified date range."
  else
    emit (SaveAs validDateRows
            ("filtered_data_" +:+ startDate s +:+ "_to_" +:+ endDate s
             +:+ ".xlsx"));;
    emit (Alert ("Processed Rows: " +:+ pretty (processed l) +:+ newline
                 +:+ "Skipped Rows: " +:+ pretty (skipped l))).

(** [headers.find(header => header.trim().toLowerCase() === normalized)] *)
Definition findColumn (headers : list string) (dateColumn : string)
    : option string :=
  let normalizedDateColumn := toLowerCase (trim dateColumn) in
  List.find
    (fun header => String.eqb (toLowerCase (trim header)) normalizedDateColumn)
    headers.

(** [processCSVFile]: starts the decoder; the decoder later calls one of
    the two handlers below. *)
Definition processCSVFile (f : File) : M unit :=
  setProcessing true;;
  emit (PapaParse f).

(** The [complete] handler given to the decoder.  It reads [dateColumn],
    [startDate] and [endDate] as [processFile] saw them; no handler
    changes them. *)
Definition processCSVFile_complete (result : ParseResult) : M unit :=
  let jsonData := data result in
  let headers := meta_fields result in
  setTotalRows (length jsonData);;
  s ← get;
  let actualDateColumn := findColumn headers (dateColumn s) in
  if not_ actualDateColumn then
    setError ("The CSV does not contain a " +:+ quote +:+ dateColumn s
              +:+ quote +:+ " column. Please check the column name.");;
    setProcessing false
  else
    transferToExcel jsonData (default EmptyString actualDateColumn);;
    setProcessing false.

(** The [error] handler given to the decoder. *)
Definition processCSVFile_error : M unit :=
  setError "Failed to parse CSV file. Please ensure it is a valid CSV.";;
  emit (ConsoleError "Error parsing CSV:");;
  setProcessing false.

(** [processExcelFile]: starts reading the file. *)
Definition processExcelFile (f : File) : M unit :=
  setProcessing true;;
  emit (ReadAsArrayBuffer f).

Definition processFile : M unit :=
  setError EmptyString;;
  resetCountsAndData;;
  ok ← validateDates;
  if negb ok then mret tt
  else
    s ← get;
    match file s with
    | Some f =>
        let fileType := toLowerCase (List.last (split "." (name f)) EmptyString) in
        if String.eqb fileType "csv" then processCSVFile f
        else if String.eqb fileType "xlsx" || String.eqb fileType "xls" then
          processExcelFile f
        else
          setError "Unsupported file type. Please upload a CSV or Excel file."
    | None => setError "Please upload a file."
    end.

End Component.

(** ** Two engines, for running the component on concrete inputs *)

Module Engine.

(** The Number values met on decimal integer input: integers and NaN.
    [Number] reads an optionally signed decimal integer with surrounding
    white space, and the empty string as 0; this engine gives NaN
    for every other string. *)
Definition IntNumber_of_string (s : string) : option Z :=
  match trim s with
  | EmptyString => Some 0
  | String "+" r => DecimalDigits r
  | String "-" r => Z.opp <$> DecimalDigits r
  | t => DecimalDigits t
  end.

Definition IntNumber : HostNumber := {|
  number := option Z;
  Number := IntNumber_of_string;
  num_of_Z := Some;
  num_lt := fun a b =>
    match a, b with
    | Some x, Some y => x <? y
    | _, _ => false
    end;
  num_add := fun a b => x ← a; y ← b; Some (x + y);
  num_sub := fun a b => x ← a; y ← b; Some (x - y);
  ToIntegerOrInfinity := fun a => a
|}.

(** The date-only form [YYYY-MM-DD] of the ISO format: midnight UTC of a
    day of the calendar. *)
Definition parse_iso_date (s : string) : option Z :=
  if negb (String.length s =? 10)%nat then None
  else if negb (String.eqb (substring 4 1 s) "-") then None
  else if negb (String.eqb (substring 7 1 s) "-") then None
  else
    y ← DecimalDigits (substring 0 4 s);
    m ← DecimalDigits (substring 5 2 s);
    d ← DecimalDigits (substring 8 2 s);
    if (1 <=? m) && (m <=? 12) && (1 <=? d) && (d <=? DaysInMonth y m)
    then Some (MakeDate (MakeDay y (m - 1) d) 0)
    else None.

(** The slash form [month/day/year] as browser engines read it: month
    1..12, day 1..31, a year 0..49 in the 2000s and 50..99 in the 1900s,
    midnight local time. *)
Definition parse_slash_date (tza : Z) (s : string) : option Z :=
  match DecimalDigits <$> split "/" s with
  | [Some m; Some d; Some y] =>
      if (1 <=? m) && (m <=? 12) && (1 <=? d) && (d <=? 31) then
        let y := if y <=? 49 then y + 2000
                 else if y <=? 99 then y + 1900
                 else y in
        Some (MakeDate (MakeDay y (m - 1) d) 0 - tza)
      else None
  | _ => None
  end.

(** An engine whose [Date.parse] reads the ISO date-only form and nothing
    else, in a zone that is at the offset [tza] throughout. *)
Definition IsoDate (tza : Z) : HostDate := {|
  Date_parse := parse_iso_date;
  LocalTZA := fun _ _ => tza
|}.

(** An engine whose [Date.parse] also reads the slash form, in a zone
    that is at the offset [tza] throughout. *)
Definition BrowserDate (tza : Z) : HostDate := {|
  Date_parse := fun s =>
    match parse_iso_date s with
    | Some t => Some t
    | None => parse_slash_date tza s
    end;
  LocalTZA := fun _ _ => tza
|}.

(** The offsets of a zone that is at [std] except from the instant
    [from] up to the instant [until], when it is an hour ahead (daylight
    saving time).  The local times of the hour that the change at [from]
    skips are read at [std], and those of the hour that occurs twice at
    [until] are read an hour ahead: in both cases the offset in force
    before the change. *)
Definition SummerTime (std from until : Z) (t : Z) (isUTC : bool) : Z :=
  if isUTC then
    if (from <=? t) && (t <? until) then std + msPerHour else std
  else
    if (from + std + msPerHour <=? t) && (t <? until + std + msPerHour)
    then std + msPerHour
    else std.

(** An engine with the ISO date-only parser in the zone of New York as it
    was in 2024: five hours west of UTC, and four from 10 March, 7:00 UTC
    to 3 November, 6:00 UTC. *)
Definition NewYorkDate : HostDate := {|
  Date_parse := parse_iso_date;
  LocalTZA := SummerTime (-5 * msPerHour) 1710054000000 1730613600000
|}.

End Engine.

(** ** The filter pass, declaratively *)

Section Filter.

Context {HD : HostDate} {HN : HostNumber}.

(** A normalised cell lies within the closed interval of time values
    [s .. e]. *)
Definition within (s e : Z) (d : option Date) : bool :=
  match d with
  | Some {| DateValue := Some t |} => (s <=? t) && (t <=? e)
  | _ => false
  end.

(** The entries of the skip list for the records of [l] that [keep]
    rejects, [index] being the position of the first record of [l]. *)
Fixpoint skipEntries {A : Type} (keep : A -> bool) (index : nat) (l : list A)
    : list SkippedRow :=
  match l with
  | [] => []
  | x :: l' =>
      if keep x then skipEntries keep (S index) l'
      else {| rowNumber := index + 2;
              reason := "Date out of range or invalid format" |}
           :: skipEntries keep (S index) l'
  end.

(** The decision the callback takes for a row, apart from its updates. *)
Definition keeps (actualDateColumn : string) (start end_ : Date) (row : Row)
    : bool :=
  fst (keepRow actualDateColumn start end_ row 0
         {| processed := 0; skipped := 0; skippedRowsLocal := [] |}).

(** The day number, in local time, of a time value; the first and the last
    millisecond of a local day. *)
Definition localDay (t : Z) : Z := Day (LocalTime t).
Definition startOfDay (day : Z) : Z := UTC (MakeDate day (MakeTime 0 0 0 0)).
Definition endOfDay (day : Z) : Z :=
  UTC (MakeDate day (MakeTime 23 59 59 999)).

(** The instant [t] lies between the first and the last millisecond of
    its own local day, as the zone places them. *)
Definition in_own_day (t : Z) : Prop :=
  startOfDay (localDay t) <= t <= endOfDay (localDay t).

End Filter.

(** A zone that is at the offset [tza] throughout. *)
Class FixedOffset (HD : HostDate) (tza : Z) : Prop :=
  fixed_offset : forall t isUTC, LocalTZA t isUTC = tza.

(** ** The scenarios of the specification, run on the engines *)

Module Scenario.

Import Engine.

Definition browser : HostDate := BrowserDate 0.
Definition iso : HostDate := IsoDate 0.

Definition initial (start end_ column : string) : World :=
  {| st := {| file := Some {| name := "visits.csv" |};
              startDate := start; endDate := end_; dateColumn := column;
              error := EmptyString; processing := false;
              processedCount := 0; skippedCount := 0; skippedRows := [];
              totalRows := 0 |};
     fx := [] |}.

Definition january : World := initial "2024-01-01" "2024-01-31" "Date".

Definition row (column cell : string) : Row := {[ column := cell ]}.

(** Scenario A *)
Definition rowsA : list Row :=
  [row "Date" "2024-01-15"; row "Date" "2024-02-01"; row "Date" "13/40/2024"].

Definition resultA : ParseResult :=
  {| data := rowsA; meta_fields := ["Date"] |}.


(** Scenario D *)
Definition reversed : World := initial "2024-02-01" "2024-01-01" "Date".

(** Scenario E *)
Definition resultE : ParseResult :=
  {| data := [row "Date" "2024-02-01"; row "Date" "n/a"];
     meta_fields := ["Date"] |}.

Definition empty_locals : Locals :=
  {| processed := 0; skipped := 0; skippedRowsLocal := [] |}.

End Scenario.

(** ** The input handlers and the button *)

Definition setFile (v : option File) : M unit :=
  modify (fun s =>
    {| file := v; startDate := startDate s; endDate := endDate s;
       dateColumn := dateColumn s; error := error s;
       processing := processing s;
       processedCount := processedCount s; skippedCount := skippedCount s;
       skippedRows := skippedRows s; totalRows := totalRows s |}).

Definition setDateColumn (v : string) : M unit :=
  modify (fun s =>
    {| file := file s; startDate := startDate s; endDate := endDate s;
       dateColumn := v; error := error s; processing := processing s;
       processedCount := processedCount s; skippedCount := skippedCount s;
       skippedRows := skippedRows s; totalRows := totalRows s |}).

(** [handleFileChange]; [chosen] is [e.target.files[0]], which is
    [undefined] when the selection is cancelled. *)
Definition handleFileChange (chosen : option File) : M unit :=
  setError EmptyString;;
  setFile chosen;;
  resetCountsAndData.

(** [handleDateColumnChange]; [value] is [e.target.value]. *)
Definition handleDateColumnChange (value : string) : M unit :=
  setDateColumn (trim value).

(** The [disabled] attribute of the button:
    [!file || !startDate || !endDate || processing]. *)
Definition buttonDisabled (s : State) : bool :=
  match file s with None => true | Some _ => false end
  || falsy (startDate s) || falsy (endDate s) || processing s.

(** [s] holds the character [c]. *)
Fixpoint has_char (c : ascii) (s : string) : bool :=
  match s with
  | EmptyString => false
  | String a s' => Ascii.eqb a c || has_char c s'
  end.

(** The number of occurrences of [c] in [s]. *)
Fixpoint count_char (c : ascii) (s : string) : nat :=
  match s with
  | EmptyString => 0
  | String a s' => (if Ascii.eqb a c then 1 else 0) + count_char c s'
  end.

(** The summary invariant: the skip count shown is the length of the skip
    list shown. *)
Definition consistent (s : State) : Prop :=
  skippedCount s = length (skippedRows s).

(** ** The load handler of [processExcelFile] *)

(** The handler receives the first sheet as an array of rows, each an
    array of cells in which an empty cell is a hole.  A cell of the first
    row is a hole, a string, or some other value; the cells of the other
    rows are taken to be strings or holes. *)
Inductive HeaderCell :=
| NoCell
| TextCell (s : string)
| OtherCell.

Inductive Worksheet :=
| NoRows
| Rows (first : list HeaderCell) (rest : list (list (option string))).

(** How a handler ends: normally, or by a [TypeError] that nothing
    catches. *)
Inductive Completion (A : Type) :=
| Normal (a : A)
| Throw.

Arguments Normal {A} a.
Arguments Throw {A}.

(** Handlers that may throw: the state changes made before the throw
    stay. *)
Definition E (A : Type) : Type := World -> Completion A * World.

#[global] Instance E_ret : MRet E := fun A a w => (Normal a, w).

#[global] Instance E_bind : MBind E :=
  fun A B k m w =>
    match m w with
    | (Normal a, w') => k a w'
    | (Throw, w') => (Throw, w')
    end.

Definition lift {A} (m : M A) : E A :=
  fun w => let '(a, w') := m w in (Normal a, w').

Definition throw {A} : E A := fun w => (Throw, w).

Definition completion {A} (c : Completion A) : E A := fun w => (c, w).

(** [worksheet[0].map((header) => header.trim().toLowerCase())]: [map]
    leaves a hole where there is one, and a header that is not a string
    has no [trim]. *)
Fixpoint mapHeaders (first : list HeaderCell)
    : Completion (list (option string)) :=
  match first with
  | [] => Normal []
  | NoCell :: cells =>
      match mapHeaders cells with
      | Normal headers => Normal (None :: headers)
      | Throw => Throw
      end
  | TextCell s :: cells =>
      match mapHeaders cells with
      | Normal headers => Normal (Some (toLowerCase (trim s)) :: headers)
      | Throw => Throw
      end
  | OtherCell :: _ => Throw
  end.

(** [obj[header] = value]: a value that is [undefined] reads like no
    value. *)
Definition assign (header : string) (value : option string) (obj : Row)
    : Row :=
  match value with
  | Some v => <[header := v]> obj
  | None => delete header obj
  end.

(** [headers.forEach((header, index) => { obj[header] = row[index]; })]:
    [forEach] passes over the holes. *)
Fixpoint forEachHeader (headers : list (option string)) (index : nat)
    (row : list (option string)) (obj : Row) : Row :=
  match headers with
  | [] => obj
  | header :: headers' =>
      forEachHeader headers' (S index) row
        match header with
        | Some h => assign h (mjoin (row !! index)) obj
        | None => obj
        end
  end.

Definition rowObject (headers : list (option string))
    (row : list (option string)) : Row :=
  forEachHeader headers 0 row ∅.

(** [headers.find((header) => header.trim().toLowerCase() === normalized)]:
    [find] does not pass over the holes, it reads [undefined] there, which
    has no [trim]. *)
Fixpoint findHeader (normalizedDateColumn : string)
    (headers : list (option string)) : Completion (option string) :=
  match headers with
  | [] => Normal None
  | None :: _ => Throw
  | Some header :: headers' =>
      if String.eqb (toLowerCase (trim header)) normalizedDateColumn
      then Normal (Some header)
      else findHeader normalizedDateColumn headers'
  end.

Section ExcelComponent.

Context {HD : HostDate} {HN : HostNumber}.

(** [reader.onload], given the rows of the first sheet. *)
Definition processExcelFile_onload (worksheet : Worksheet) : E unit :=
  first ← match worksheet with
          | NoRows => throw
          | Rows first _ => mret first
          end;
  headers ← completion (mapHeaders first);
  let jsonData :=
    rowObject headers <$>
      match worksheet with
      | NoRows => []
      | Rows _ rest => rest
      end in
  lift (setTotalRows (length jsonData));;
  s ← lift get;
  let normalizedDateColumn := toLowerCase (trim (dateColumn s)) in
  actualDateColumn ← completion (findHeader normalizedDateColumn headers);
  if not_ actualDateColumn then
    lift (setError ("The Excel file does not contain a " +:+ quote
                    +:+ dateColumn s +:+ quote
                    +:+ " column. Please check the column name."));;
    lift (setProcessing false)
  else
    lift (transferToExcel jsonData (default EmptyString actualDateColumn));;
    lift (setProcessing false).

(** [reader.onerror] *)
Definition processExcelFile_onerror : M unit :=
  setError "Failed to read Excel file.";;
  emit (ConsoleError "Error reading Excel file:");;
  setProcessing false.

End ExcelComponent.

(** ** More inputs for the runs *)

Module MoreInputs.

Import Engine Scenario.

Definition west : HostDate := BrowserDate (-5 * msPerHour).

(** The state a first run leaves behind. *)
Definition after_A : World :=
  exec (processCSVFile_complete (HD := browser) (HN := IntNumber) resultA)
    january.

Definition sheetA : Worksheet :=
  Rows [TextCell " Date "; TextCell "Name"]
    [[Some "2024-01-15"; Some "Ann"];
     [Some "2024-02-01"];
     [Some "13/40/2024"; Some "Cy"];
     [None; Some "Di"]].

End MoreInputs.

(** ** Strings *)

Section Strings.

Lemma trimStart_all_space s : all_space s = true -> trimStart s = EmptyString.
Proof.
  induction s as [|c s IH]; cbn; [reflexivity|].
  destruct (Ascii.is_space c); [exact IH|discriminate].
Qed.

Lemma trimStart_padding pre s :
  all_space pre = true -> trimStart (pre +:+ s) = trimStart s.
Proof.
  induction pre as [|c pre IH]; cbn [all_space]; intros H; [reflexivity|].
  apply andb_true_iff in H as [Hc Hpre].
  change (String c pre +:+ s) with (String c (pre +:+ s)).
  cbn [trimStart]. rewrite Hc. apply IH. exact Hpre.
Qed.

Lemma trimStart_tight s : starts_tight s = true -> trimStart s = s.
Proof.
  destruct s as [|c s]; cbn; [reflexivity|].
  destruct (Ascii.is_space c); [discriminate|reflexivity].
Qed.

Lemma trimEnd_all_space s : all_space s = true -> trimEnd s = EmptyString.
Proof.
  induction s as [|c s IH]; cbn [all_space trimEnd]; intros H; [reflexivity|].
  apply andb_true_iff in H as [Hc Hs]. rewrite (IH Hs), Hc. reflexivity.
Qed.

Lemma trimEnd_padding s post :
  all_space post = true -> trimEnd (s +:+ post) = trimEnd s.
Proof.
  intros H. induction s as [|c s IH].
  - cbn. apply trimEnd_all_space. exact H.
  - change (String c s +:+ post) with (String c (s +:+ post)).
    cbn [trimEnd]. rewrite IH. reflexivity.
Qed.

Lemma trimEnd_tight s : ends_tight s = true -> trimEnd s = s.
Proof.
  induction s as [|c s IH]; [reflexivity|].
  destruct s as [|c' s].
  - cbn. destruct (Ascii.is_space c); [discriminate|reflexivity].
  - intros H. change (ends_tight (String c' s) = true) in H.
    cbn [trimEnd] in *. rewrite (IH H). reflexivity.
Qed.

(** [trim] removes the white space around a string, and only that. *)
Lemma trim_padding pre s post :
  all_space pre = true -> all_space post = true ->
  starts_tight s = true -> ends_tight s = true ->
  trim (pre +:+ s +:+ post) = s.
Proof.
  intros Hpre Hpost Hs He. unfold trim. rewrite trimStart_padding by exact Hpre.
  destruct s as [|c s].
  - cbn. rewrite trimStart_all_space by exact Hpost. reflexivity.
  - rewrite trimStart_tight by exact Hs.
    rewrite trimEnd_padding by exact Hpost.
    apply trimEnd_tight. exact He.
Qed.

Lemma lower_char_idempotent c : lower_char (lower_char c) = lower_char c.
Proof. destruct c as [ [] [] [] [] [] [] [] [] ]; reflexivity. Qed.

Lemma toLowerCase_idempotent s : toLowerCase (toLowerCase s) = toLowerCase s.
Proof.
  induction s as [|c s IH]; cbn; [reflexivity|].
  rewrite lower_char_idempotent, IH. reflexivity.
Qed.

End Strings.

(** ** Properties *)

Section Properties.

Context {HD : HostDate} {HN : HostNumber}.

Lemma TimeClip_Some t u : TimeClip t = Some u -> u = t /\ Z.abs t <= maxTime.
Proof.
  unfold TimeClip. destruct (Z.ltb_spec maxTime (Z.abs t)); [discriminate|].
  intros [= <-]. auto.
Qed.

Lemma isValidDate_true d :
  isValidDate d = true <-> exists t, d = mkDate (Some t).
Proof.
  destruct d as [[t|]]; cbn; split; try discriminate; eauto.
  - intros [t [=]].
Qed.

Lemma Date_of_string_range s t :
  DateValue (Date_of_string s) = Some t -> Z.abs t <= maxTime.
Proof.
  cbn. destruct (Date_parse s) as [u|]; cbn; [|discriminate].
  intros H. apply TimeClip_Some in H as [-> ?]. assumption.
Qed.

Lemma Date_of_fields_range y m d t :
  DateValue (Date_of_fields y m d) = Some t -> Z.abs t <= maxTime.
Proof.
  cbn. destruct (ToIntegerOrInfinity y), (ToIntegerOrInfinity m),
    (ToIntegerOrInfinity d); try discriminate.
  intros H. apply TimeClip_Some in H as [-> ?]. assumption.
Qed.

(** Whatever [parseDate] returns other than [null] is a valid date. *)
Lemma parseDate_valid cell d :
  parseDate cell = Some d -> exists t, d = mkDate (Some t) /\ Z.abs t <= maxTime.
Proof.
  unfold parseDate. destruct cell as [s|]; [|discriminate].
  destruct (falsy s); [discriminate|].
  destruct (isValidDate (Date_of_string s)) eqn:Hv.
  - intros [= <-]. apply isValidDate_true in Hv as [t Ht].
    exists t. split; [assumption|].
    apply (Date_of_string_range s). rewrite Ht. reflexivity.
  - destruct (Number <$> split "/" s) as [|month [|day [|year [|] ] ] ];
      try discriminate.
    match goal with |- context [isValidDate ?x] =>
      destruct (isValidDate x) eqn:Hf; [|discriminate];
      intros [= <-]; apply isValidDate_true in Hf as [t Ht];
      exists t; split; [assumption|];
      eapply Date_of_fields_range; rewrite Ht; reflexivity
    end.
Qed.

(** The callback keeps a row exactly when its cell normalises to a date
    that is neither before [start] nor after [end_]; its updates of the
    counters and of the skip list follow the decision. *)
Lemma keepRow_keeps col start end_ row index l :
  keepRow col start end_ row index l =
  if keeps col start end_ row then
    (true, {| processed := processed l + 1; skipped := skipped l;
              skippedRowsLocal := skippedRowsLocal l |})
  else
    (false, {| processed := processed l; skipped := skipped l + 1;
               skippedRowsLocal :=
                 skippedRowsLocal l ++
                 [{| rowNumber := index + 2;
                     reason := "Date out of range or invalid format" |}] |}).
Proof.
  unfold keeps, keepRow.
  destruct (parseDate (row !! col)) as [d|]; [|reflexivity].
  destruct (date_lt d start || date_gt d end_); reflexivity.
Qed.

Lemma keeps_within col start end_ s e row :
  DateValue start = Some s -> DateValue end_ = Some e ->
  keeps col start end_ row = within s e (parseDate (row !! col)).
Proof.
  intros Hs He. unfold keeps, keepRow, within.
  destruct (parseDate (row !! col)) as [d|] eqn:Hp; [|reflexivity].
  apply parseDate_valid in Hp as [t [-> _] ].
  unfold date_gt, date_lt. cbn. rewrite Hs, He.
  destruct (Z.ltb_spec t s), (Z.ltb_spec e t), (Z.leb_spec s t),
    (Z.leb_spec t e); cbn; try reflexivity; lia.
Qed.

(** One pass of the filter: the kept rows are the rows the callback keeps,
    in order; the counters count both kinds; the skip list grows by one
    entry per rejected row. *)
Lemma filter_from_spec col start end_ (rows : list Row) index l :
  filter_from (keepRow col start end_) index rows l =
  (List.filter (keeps col start end_) rows,
   {| processed :=
        processed l + length (List.filter (keeps col start end_) rows);
      skipped :=
        skipped l +
        length (List.filter (fun r => negb (keeps col start end_ r)) rows);
      skippedRowsLocal :=
        skippedRowsLocal l ++ skipEntries (keeps col start end_) index rows |}).
Proof.
  revert index l. induction rows as [|row rows IH]; intros index l.
  - cbn. rewrite Nat.add_0_r, Nat.add_0_r, app_nil_r. destruct l; reflexivity.
  - cbn [filter_from]. rewrite keepRow_keeps.
    destruct (keeps col start end_ row) eqn:Hk.
    + rewrite IH. cbn [List.filter skipEntries processed skipped
        skippedRowsLocal negb]. rewrite Hk. cbn [negb length].
      f_equal. f_equal; lia.
    + rewrite IH. cbn [List.filter skipEntries processed skipped
        skippedRowsLocal negb]. rewrite Hk. cbn [negb length].
      rewrite <- app_assoc. cbn [app]. f_equal. f_equal; lia.
Qed.

Lemma filter_length_split {A} (p : A -> bool) (l : list A) :
  (length (List.filter p l) + length (List.filter (fun x => negb (p x)) l)
   = length l)%nat.
Proof.
  induction l as [|x l IH]; cbn; [reflexivity|].
  destruct (p x); cbn; lia.
Qed.

Lemma skipEntries_length {A} (p : A -> bool) index (l : list A) :
  length (skipEntries p index l) =
  length (List.filter (fun x => negb (p x)) l).
Proof.
  revert index. induction l as [|x l IH]; intros index; cbn; [reflexivity|].
  destruct (p x); cbn; rewrite IH; reflexivity.
Qed.

(** The skip list holds exactly the positions of the rejected rows, each
    shifted by 2. *)
Lemma skipEntries_elem {A} (p : A -> bool) index (l : list A) entry :
  In entry (skipEntries p index l) <->
  exists i x, l !! i = Some x /\ p x = false /\
    entry = {| rowNumber := index + i + 2;
               reason := "Date out of range or invalid format" |}.
Proof.
  revert index. induction l as [|x l IH]; intros index; cbn.
  - split; [tauto|]. intros (i & y & H & _). discriminate.
  - assert (Hshift : forall i : nat, (S index + i + 2 = index + S i + 2)%nat)
      by (intros; lia).
    destruct (p x) eqn:Hp; cbn; rewrite ?IH.
    + split.
      * intros (i & y & Hy & Hpy & ->). exists (S i), y.
        rewrite <- Hshift. auto.
      * intros ([|i] & y & Hy & Hpy & ->); cbn in Hy.
        -- injection Hy as ->. congruence.
        -- exists i, y. rewrite Hshift. auto.
    + split.
      * intros [<-|(i & y & Hy & Hpy & ->)].
        -- exists 0%nat, x. rewrite Nat.add_0_r. auto.
        -- exists (S i), y. rewrite <- Hshift. auto.
      * intros ([|i] & y & Hy & Hpy & ->); cbn in Hy.
        -- left. rewrite Nat.add_0_r. reflexivity.
        -- right. exists i, y. rewrite Hshift. auto.
Qed.

(** What [transferToExcel] leaves behind, field by field. *)
Lemma transferToExcel_exec data col w :
  let start := range_start (startDate (st w)) in
  let end_ := range_end (endDate (st w)) in
  let kept := List.filter (keeps col start end_) data in
  let w' := exec (transferToExcel data col) w in
  processedCount (st w') = length kept /\
  skippedCount (st w') =
    length (List.filter (fun r => negb (keeps col start end_ r)) data) /\
  skippedRows (st w') = skipEntries (keeps col start end_) 0 data /\
  totalRows (st w') = totalRows (st w) /\
  processing (st w') = processing (st w) /\
  error (st w') =
    (if (length kept =? 0)%nat
     then "No valid data found within the specified date range."
     else error (st w)) /\
  fx w' =
    (fx w ++
     if (length kept =? 0)%nat then []
     else [SaveAs kept
             ("filtered_data_" +:+ startDate (st w) +:+ "_to_"
              +:+ endDate (st w) +:+ ".xlsx");
           Alert ("Processed Rows: " +:+ pretty (length kept) +:+ newline
                  +:+ "Skipped Rows: "
                  +:+ pretty (length (List.filter
                        (fun r => negb (keeps col start end_ r)) data)))])%list.
Proof.
  intros start end_ kept w'. subst w'.
  unfold exec, transferToExcel, Array_filter, mbind, M_bind, get.
  cbn [st]. rewrite filter_from_spec. fold start end_ kept.
  cbn [processed skipped skippedRowsLocal app Nat.add].
  destruct (length kept =? 0)%nat eqn:Hk; cbn;
    rewrite ?app_nil_r, <- ?app_assoc; repeat split; reflexivity.
Qed.

(** When the requested column resolves to a header that is not the empty
    string, the [complete] handler records the number of rows, runs
    [transferToExcel] and clears the busy flag. *)
Lemma processCSVFile_complete_resolved result w col :
  findColumn (meta_fields result) (dateColumn (st w)) = Some col ->
  falsy col = false ->
  exec (processCSVFile_complete result) w =
  exec (setProcessing false)
    (exec (transferToExcel (data result) col)
       (exec (setTotalRows (length (data result))) w)).
Proof.
  intros Hfind Hcol.
  unfold exec at 1. unfold processCSVFile_complete, mbind, M_bind.
  cbn [setTotalRows modify get st dateColumn]. rewrite Hfind.
  cbn [not_ default]. rewrite Hcol.
  unfold exec, mbind, M_bind. cbn [setTotalRows modify].
  destruct (transferToExcel _ _ _) as [u w1]. reflexivity.
Qed.


Lemma findColumn_None headers requested :
  findColumn headers requested = None <->
  forall h, In h headers ->
    toLowerCase (trim h) <> toLowerCase (trim requested).
Proof.
  unfold findColumn. induction headers as [|x headers IH]; cbn.
  - split; [intros _ h []|reflexivity].
  - destruct (String.eqb_spec (toLowerCase (trim x))
                (toLowerCase (trim requested))) as [Heq|Hne].
    + split; [discriminate|]. intros H. destruct (H x); auto.
    + rewrite IH. split.
      * intros H h [<-|Hin]; auto.
      * intros H h Hin. apply H. auto.
Qed.

Lemma findColumn_Some headers requested h :
  findColumn headers requested = Some h <->
  exists before after,
    headers = (before ++ h :: after)%list /\
    toLowerCase (trim h) = toLowerCase (trim requested) /\
    forall x, In x before ->
      toLowerCase (trim x) <> toLowerCase (trim requested).
Proof.
  unfold findColumn. induction headers as [|x headers IH]; cbn.
  - split; [discriminate|]. intros ([|? ?] & after & H & _); discriminate.
  - destruct (String.eqb_spec (toLowerCase (trim x))
                (toLowerCase (trim requested))) as [Heq|Hne].
    + split.
      * intros [= <-]. exists [], headers. cbn. intuition.
      * intros ([|y before] & after & H & Hh & Hpre); cbn in H.
        -- congruence.
        -- injection H as -> ->. destruct (Hpre y); cbn; auto.
    + rewrite IH. split.
      * intros (before & after & -> & Hh & Hpre).
        exists (x :: before), after. cbn. split; [reflexivity|].
        split; [assumption|]. intros y [<-|Hin]; auto.
      * intros ([|y before] & after & H & Hh & Hpre); cbn in H.
        -- injection H as -> ->. contradiction.
        -- injection H as -> ->. exists before, after.
           split; [reflexivity|]. split; [assumption|].
           intros z Hz. apply Hpre. cbn. auto.
Qed.

(** *** Day boundaries *)

Lemma range_start_startOfDay sd s :
  DateValue (range_start sd) = Some s ->
  exists t0, DateValue (Date_of_string sd) = Some t0 /\
    s = startOfDay (localDay t0).
Proof.
  unfold range_start, setHours. cbn [DateValue].
  destruct (DateValue (Date_of_string sd)) as [t0|]; [|discriminate].
  cbn [mbind option_bind]. intros H. apply TimeClip_Some in H as [-> _].
  exists t0. split; reflexivity.
Qed.

Lemma range_end_endOfDay ed e :
  DateValue (range_end ed) = Some e ->
  exists t1, DateValue (Date_of_string ed) = Some t1 /\
    e = endOfDay (localDay t1).
Proof.
  unfold range_end, setHours. cbn [DateValue].
  destruct (DateValue (Date_of_string ed)) as [t1|]; [|discriminate].
  cbn [mbind option_bind]. intros H. apply TimeClip_Some in H as [-> _].
  exists t1. split; reflexivity.
Qed.

(** In a zone of constant offset, between the first millisecond of day
    [a] and the last millisecond of day [b] lie exactly the time values
    whose local day is in [a .. b]. *)
Lemma day_interval tza `{!FixedOffset HD tza} a b t :
  startOfDay a <= t <= endOfDay b <-> a <= localDay t <= b.
Proof.
  unfold startOfDay, endOfDay, localDay, UTC, LocalTime, MakeDate, Day.
  rewrite !(fixed_offset (tza := tza)).
  change (MakeTime 0 0 0 0) with 0.
  change (MakeTime 23 59 59 999) with (msPerDay - 1).
  assert (Hpos : 0 < msPerDay) by reflexivity.
  generalize dependent msPerDay. intros D HD0.
  pose proof (Z.div_mod (t + tza) D ltac:(lia)) as Hdm.
  pose proof (Z.mod_pos_bound (t + tza) D HD0) as Hmb.
  set (q := (t + tza) / D) in *. set (r := (t + tza) mod D) in *.
  split; intros [H1 H2]; split; nia.
Qed.

Lemma within_true s e cell :
  within s e (parseDate cell) = true <->
  exists t, parseDate cell = Some (mkDate (Some t)) /\ s <= t <= e.
Proof.
  unfold within. destruct (parseDate cell) as [ [ [t|] ] |].
  - rewrite andb_true_iff, Z.leb_le, Z.leb_le. split.
    + intros H. exists t. auto.
    + intros (u & [= <-] & H). exact H.
  - split; [discriminate|]. intros (u & [=] & _).
  - split; [discriminate|]. intros (u & [=] & _).
Qed.

Lemma within_false s e cell :
  within s e (parseDate cell) = false <->
  parseDate cell = None \/
  exists t, parseDate cell = Some (mkDate (Some t)) /\ (t < s \/ e < t).
Proof.
  unfold within. destruct (parseDate cell) as [d|] eqn:Hp.
  - apply parseDate_valid in Hp as (t & -> & _).
    rewrite andb_false_iff, Z.leb_gt, Z.leb_gt. split.
    + intros H. right. exists t. auto.
    + intros [ [=] | (u & [= <-] & H) ]. exact H.
  - split; auto.
Qed.

(** There the range test is a test on days: with range ends
    [startOfDay a] and [endOfDay b], a normalised cell is within the range
    exactly when its local day is in [a .. b]. *)
Lemma within_days tza `{!FixedOffset HD tza} a b cell :
  within (startOfDay a) (endOfDay b) (parseDate cell) = true <->
  exists t, parseDate cell = Some (mkDate (Some t)) /\
            a <= localDay t <= b.
Proof.
  rewrite within_true. split; intros (t & Hp & H); exists t;
    (split; [exact Hp|]); apply (day_interval tza); exact H.
Qed.

Lemma skipEntries_all {A} (p : A -> bool) index (l : list A) :
  (forall x, In x l -> p x = false) ->
  skipEntries p index l =
  imap (fun i _ => {| rowNumber := index + i + 2;
                      reason := "Date out of range or invalid format" |}) l.
Proof.
  revert index. induction l as [|x l IH]; intros index Hall; cbn.
  - reflexivity.
  - rewrite (Hall x) by (cbn; auto). rewrite Nat.add_0_r. f_equal.
    rewrite IH by (intros y Hy; apply Hall; cbn; auto).
    apply imap_ext. intros i y _. cbn. f_equal. lia.
Qed.

Lemma filter_none {A} (p : A -> bool) (l : list A) :
  (forall x, In x l -> p x = false) -> List.filter p l = [].
Proof.
  induction l as [|x l IH]; intros Hall; cbn; [reflexivity|].
  rewrite (Hall x) by (cbn; auto). apply IH. intros y Hy. apply Hall.
  cbn. auto.
Qed.

(** What the [complete] handler leaves behind when the column resolves. *)
Lemma processCSVFile_complete_fields result w col :
  findColumn (meta_fields result) (dateColumn (st w)) = Some col ->
  falsy col = false ->
  let start := range_start (startDate (st w)) in
  let end_ := range_end (endDate (st w)) in
  let kept := List.filter (keeps col start end_) (data result) in
  let w' := exec (processCSVFile_complete result) w in
  totalRows (st w') = length (data result) /\
  processedCount (st w') = length kept /\
  skippedCount (st w') =
    length (List.filter (fun r => negb (keeps col start end_ r))
              (data result)) /\
  skippedRows (st w') = skipEntries (keeps col start end_) 0 (data result) /\
  processing (st w') = false /\
  error (st w') =
    (if (length kept =? 0)%nat
     then "No valid data found within the specified date range."
     else error (st w)) /\
  ((length kept =? 0)%nat = true -> fx w' = fx w).
Proof.
  intros Hfind Hcol start end_ kept w'. subst w'.
  rewrite (processCSVFile_complete_resolved _ _ _ Hfind Hcol).
  remember (exec (setTotalRows (length (data result))) w) as w0 eqn:Hw0.
  assert (Hsd : startDate (st w0) = startDate (st w)) by (subst; reflexivity).
  assert (Hed : endDate (st w0) = endDate (st w)) by (subst; reflexivity).
  assert (Hfx0 : fx w0 = fx w) by (subst; reflexivity).
  assert (Herr0 : error (st w0) = error (st w)) by (subst; reflexivity).
  assert (Htot0 : totalRows (st w0) = length (data result))
    by (subst; reflexivity).
  pose proof (transferToExcel_exec (data result) col w0) as H.
  cbn zeta in H. rewrite Hsd, Hed, Hfx0, Herr0, Htot0 in H.
  fold start end_ kept in H.
  destruct H as (Hp & Hsk & Hrows & Htot & _ & Herr & Hfx).
  split; [exact Htot|]. split; [exact Hp|]. split; [exact Hsk|].
  split; [exact Hrows|]. split; [reflexivity|]. split; [exact Herr|].
  intros Hk. rewrite Hk in Hfx. rewrite app_nil_r in Hfx. exact Hfx.
Qed.

(** *** The filter pass *)

(** X23: what the filter does.  With both range ends valid, [s] is the
    instant the zone gives to the first millisecond of the local day of
    [new Date(startDate)] and [e] the instant it gives to the last
    millisecond of the local day of [new Date(endDate)]; the filter keeps
    exactly the records whose cell under the resolved column normalises
    to a date within [s .. e], in their input order, and the skip list has
    an entry for a record exactly when its cell fails to normalise or
    normalises to a date before [s] or after [e].  West of UTC these
    local days are not the days that the two strings name. *)
Theorem filter_partition (rows : list Row) col sd ed s e :
  DateValue (range_start sd) = Some s ->
  DateValue (range_end ed) = Some e ->
  exists t0 t1,
    DateValue (Date_of_string sd) = Some t0 /\
    DateValue (Date_of_string ed) = Some t1 /\
    s = startOfDay (localDay t0) /\
    e = endOfDay (localDay t1) /\
    let result :=
      Array_filter (keepRow col (range_start sd) (range_end ed)) rows
        {| processed := 0; skipped := 0; skippedRowsLocal := [] |} in
    result.1 =
      List.filter (fun row => within s e (parseDate (row !! col))) rows /\
    (forall row : Row,
       within s e (parseDate (row !! col)) = true <->
       exists t, parseDate (row !! col) = Some (mkDate (Some t)) /\
                 s <= t <= e) /\
    (forall (i : nat) (row : Row), rows !! i = Some row ->
       In {| rowNumber := i + 2;
             reason := "Date out of range or invalid format" |}
          (skippedRowsLocal result.2) <->
       parseDate (row !! col) = None \/
       exists t, parseDate (row !! col) = Some (mkDate (Some t)) /\
                 (t < s \/ e < t)).
Proof.
  intros Hs He.
  destruct (range_start_startOfDay _ _ Hs) as (t0 & Ht0 & Hs0).
  destruct (range_end_endOfDay _ _ He) as (t1 & Ht1 & He1).
  exists t0, t1. repeat (split; [assumption|]).
  unfold Array_filter. rewrite filter_from_spec. cbn [fst snd skippedRowsLocal app].
  split; [|split].
  - apply List.filter_ext. intros row. apply (keeps_within _ _ _ _ _ _ Hs He).
  - intros row. apply within_true.
  - intros i row Hrow. rewrite skipEntries_elem, <- within_false. split.
    + intros (j & x & Hx & Hk & [= Hij]).
      assert (j = i) as -> by lia.
      assert (x = row) as -> by congruence.
      rewrite <- (keeps_within _ _ _ _ _ _ Hs He). exact Hk.
    + intros Hw. exists i, row. split; [assumption|]. split; [|reflexivity].
      rewrite (keeps_within _ _ _ _ _ _ Hs He). exact Hw.
Qed.

(** C2: after a filter pass (the requested column resolved), the number of
    processed rows plus the number of skipped rows is the number of input
    rows; the first is the number of kept records and the second the length
    of the skip list. *)
Theorem counts_add_up result w col :
  findColumn (meta_fields result) (dateColumn (st w)) = Some col ->
  falsy col = false ->
  let w' := exec (processCSVFile_complete result) w in
  let kept :=
    (Array_filter
       (keepRow col (range_start (startDate (st w)))
          (range_end (endDate (st w))))
       (data result)
       {| processed := 0; skipped := 0; skippedRowsLocal := [] |}).1 in
  totalRows (st w') = length (data result) /\
  processedCount (st w') = length kept /\
  skippedCount (st w') = length (skippedRows (st w')) /\
  (processedCount (st w') + skippedCount (st w') = totalRows (st w'))%nat.
Proof.
  intros Hfind Hcol w' kept. subst w' kept.
  destruct (processCSVFile_complete_fields _ _ _ Hfind Hcol)
    as (Htot & Hp & Hsk & Hrows & _).
  unfold Array_filter. rewrite filter_from_spec. cbn [fst].
  rewrite Htot, Hp, Hsk, Hrows, skipEntries_length.
  repeat split. apply filter_length_split.
Qed.

(** C9: every entry of the skip list carries the 0-based position of a
    rejected record plus 2, every rejected record has its entry, and so
    every reported row number is at least 2, however many rows are
    skipped. *)
Theorem row_numbers (rows : list Row) col w :
  let start := range_start (startDate (st w)) in
  let end_ := range_end (endDate (st w)) in
  let w' := exec (transferToExcel rows col) w in
  (forall entry, In entry (skippedRows (st w')) ->
     (2 <= rowNumber entry)%nat /\
     exists (i : nat) (row : Row),
       rows !! i = Some row /\ keeps col start end_ row = false /\
       rowNumber entry = (i + 2)%nat) /\
  (forall (i : nat) (row : Row),
     rows !! i = Some row -> keeps col start end_ row = false ->
     In {| rowNumber := i + 2;
           reason := "Date out of range or invalid format" |}
        (skippedRows (st w'))).
Proof.
  intros start end_ w'.
  destruct (transferToExcel_exec rows col w) as (_ & _ & Hrows & _).
  fold start end_ w' in Hrows. rewrite Hrows. split.
  - intros entry Hin. apply skipEntries_elem in Hin as (i & row & Hi & Hk & ->).
    cbn [rowNumber]. split; [lia|]. exists i, row. auto.
  - intros i row Hi Hk. apply skipEntries_elem. exists i, row. auto.
Qed.

(** C8: when the column resolves and every record is rejected, the handler
    still reports the counts and the whole skip list, one entry per record
    in order; it sets the no-data message, and neither saves a file nor
    raises anything. *)
Theorem all_skipped result w col :
  findColumn (meta_fields result) (dateColumn (st w)) = Some col ->
  falsy col = false ->
  (forall row, In row (data result) ->
     keeps col (range_start (startDate (st w)))
       (range_end (endDate (st w))) row = false) ->
  let w' := exec (processCSVFile_complete result) w in
  totalRows (st w') = length (data result) /\
  processedCount (st w') = 0%nat /\
  skippedCount (st w') = length (data result) /\
  skippedRows (st w') =
    imap (fun i _ => {| rowNumber := i + 2;
                        reason := "Date out of range or invalid format" |})
      (data result) /\
  error (st w') = "No valid data found within the specified date range." /\
  fx w' = fx w.
Proof.
  intros Hfind Hcol Hall w'.
  destruct (processCSVFile_complete_fields _ _ _ Hfind Hcol)
    as (Htot & Hp & Hsk & Hrows & _ & Herr & Hfx).
  fold w' in Htot, Hp, Hsk, Hrows, Herr, Hfx.
  rewrite (filter_none _ _ Hall) in Hp, Herr, Hfx.
  rewrite (skipEntries_all _ _ _ Hall) in Hrows.
  rewrite <- skipEntries_length with (index := 0%nat) in Hsk.
  rewrite (skipEntries_all _ _ _ Hall), length_imap in Hsk.
  repeat split; try assumption. apply Hfx. reflexivity.
Qed.

(** *** Column resolution *)

(** C4: the requested name and each header are trimmed and lower-cased,
    and the column found is the first header whose normal form equals that
    of the requested name; there is none exactly when no header matches.
    Requesting [" date of visit "] finds the header ["Date of Visit"]. *)
Theorem column_resolution headers requested :
  (forall h,
     findColumn headers requested = Some h <->
     exists before after,
       headers = (before ++ h :: after)%list /\
       toLowerCase (trim h) = toLowerCase (trim requested) /\
       forall x, In x before ->
         toLowerCase (trim x) <> toLowerCase (trim requested)) /\
  (findColumn headers requested = None <->
   forall h, In h headers ->
     toLowerCase (trim h) <> toLowerCase (trim requested)) /\
  findColumn ["Name"; "Date of Visit"; "date of visit"] " date of visit "
  = Some "Date of Visit".
Proof.
  split; [|split].
  - intros h. apply findColumn_Some.
  - apply findColumn_None.
  - reflexivity.
Qed.


(** *** Range validation *)

(** C6: when the start or the end date is missing, or the end date is
    earlier than the start date, [processFile] stops with an error message
    before the decoder is started: no effect is produced and all counts are
    zero. *)
Theorem invalid_range w :
  startDate (st w) = EmptyString \/ endDate (st w) = EmptyString \/
  (exists ts te,
     DateValue (Date_of_string (startDate (st w))) = Some ts /\
     DateValue (Date_of_string (endDate (st w))) = Some te /\
     te < ts) ->
  let w' := exec processFile w in
  (error (st w') = "Please select both start and end dates." \/
   error (st w') = "End Date cannot be earlier than Start Date.") /\
  processedCount (st w') = 0%nat /\
  skippedCount (st w') = 0%nat /\
  skippedRows (st w') = [] /\
  totalRows (st w') = 0%nat /\
  processing (st w') = processing (st w) /\
  fx w' = fx w.
Proof.
  destruct w as [ [f sd ed dc err pr pc sc sr tr] effects ].
  cbn [st fx startDate endDate processing].
  intros H. cbn zeta.
  unfold exec, processFile, resetCountsAndData, validateDates, mbind, M_bind.
  cbn [setError setProcessedCount setSkippedCount setSkippedRows setTotalRows
       modify get fst snd st fx file startDate endDate dateColumn error
       processing processedCount skippedCount skippedRows totalRows].
  destruct (falsy sd || falsy ed) eqn:Hmiss.
  - cbn. repeat split; auto.
  - destruct H as [H|[H|(ts & te & Hts & Hte & Hlt)]].
    + rewrite H in Hmiss. discriminate.
    + rewrite H, orb_true_r in Hmiss. discriminate.
    + unfold date_lt. rewrite Hts, Hte.
      destruct (Z.ltb_spec te ts); [|lia].
      cbn. repeat split; auto.
Qed.

(** With both dates present and in order, [processFile] starts the
    decoder on a file named [*.csv]. *)
Lemma processFile_starts w f ts te :
  startDate (st w) <> EmptyString -> endDate (st w) <> EmptyString ->
  DateValue (Date_of_string (startDate (st w))) = Some ts ->
  DateValue (Date_of_string (endDate (st w))) = Some te ->
  ts <= te ->
  file (st w) = Some f ->
  toLowerCase (List.last (split "." (name f)) EmptyString) = "csv" ->
  let w' := exec processFile w in
  fx w' = (fx w ++ [PapaParse f])%list /\
  processing (st w') = true /\
  error (st w') = EmptyString.
Proof.
  destruct w as [ [f0 sd ed dc err pr pc sc sr tr] effects ].
  cbn [st fx startDate endDate file].
  intros Hs He Hts Hte Hle Hf Hcsv. cbn zeta.
  unfold exec, processFile, resetCountsAndData, validateDates, mbind, M_bind.
  cbn [setError setProcessedCount setSkippedCount setSkippedRows setTotalRows
       modify get fst snd st fx file startDate endDate dateColumn error
       processing processedCount skippedCount skippedRows totalRows].
  assert (Hfs : falsy sd = false)
    by (destruct sd; [contradiction|reflexivity]).
  assert (Hfe : falsy ed = false)
    by (destruct ed; [contradiction|reflexivity]).
  rewrite Hfs, Hfe. cbn [orb]. unfold date_lt. rewrite Hts, Hte.
  destruct (Z.ltb_spec te ts); [lia|].
  cbn [mret M_ret negb st file]. rewrite Hf, Hcsv. cbn. repeat split.
Qed.

(** *** The date normaliser *)

(** C10: [parseDate] returns [null] or a valid date, whose time value is a
    number within the range of time values, and nothing else. *)
Theorem parseDate_total cell :
  parseDate cell = None \/
  exists t,
    parseDate cell = Some (mkDate (Some t)) /\
    isValidDate (mkDate (Some t)) = true /\
    Z.abs t <= maxTime.
Proof.
  destruct (parseDate cell) as [d|] eqn:Hp; [right|left; reflexivity].
  apply parseDate_valid in Hp as (t & -> & Ht). exists t. auto.
Qed.

End Properties.

(** ** The calendar *)

(** Evaluates [DaysBeforeMonth] at constants, in the goal and in the
    hypotheses. *)
Ltac eval_months :=
  repeat match goal with
    | |- context [DaysBeforeMonth ?l ?m] =>
        let v := eval vm_compute in (DaysBeforeMonth l m) in
        progress change (DaysBeforeMonth l m) with v
    | H : context [DaysBeforeMonth ?l ?m] |- _ =>
        let v := eval vm_compute in (DaysBeforeMonth l m) in
        progress change (DaysBeforeMonth l m) with v in H
    end.

Section Calendar.

Lemma DayFromYear_step y : DayFromYear (y + 1) = DayFromYear y + DaysInYear y.
Proof.
  unfold DayFromYear, DaysInYear.
  destruct (Z.eqb_spec (y mod 4) 0), (Z.eqb_spec (y mod 100) 0),
    (Z.eqb_spec (y mod 400) 0); cbn [negb];
    Z.div_mod_to_equations; lia.
Qed.

Lemma leap_cases y : DaysInYear y = 365 \/ DaysInYear y = 366.
Proof.
  unfold DaysInYear.
  destruct (y mod 4 =? 0), (y mod 100 =? 0), (y mod 400 =? 0); cbn; auto.
Qed.

Lemma DayFromYear_mono y1 y2 : y1 <= y2 -> DayFromYear y1 <= DayFromYear y2.
Proof.
  intros H. replace y2 with (y1 + Z.of_nat (Z.to_nat (y2 - y1))) by lia.
  induction (Z.to_nat (y2 - y1)) as [|n IH].
  - rewrite Z.add_0_r. lia.
  - replace (y1 + Z.of_nat (S n)) with (y1 + Z.of_nat n + 1) by lia.
    rewrite DayFromYear_step.
    destruct (leap_cases (y1 + Z.of_nat n)); lia.
Qed.

(** [YearFromDay d] is the year whose days include [d]. *)
Lemma YearFromDay_spec d :
  DayFromYear (YearFromDay d) <= d < DayFromYear (YearFromDay d + 1).
Proof.
  unfold YearFromDay. set (y := 1970 + 400 * d / 146097).
  destruct (Z.ltb_spec d (DayFromYear y)).
  - replace (y - 1 + 1) with y by lia. split; [|assumption].
    subst y. unfold DayFromYear in *. Z.div_mod_to_equations. lia.
  - destruct (Z.leb_spec (DayFromYear (y + 1)) d).
    + split; [assumption|].
      subst y. unfold DayFromYear in *. Z.div_mod_to_equations. lia.
    + split; assumption.
Qed.

Lemma YearFromDay_unique y d :
  DayFromYear y <= d < DayFromYear (y + 1) -> YearFromDay d = y.
Proof.
  intros [H1 H2]. destruct (YearFromDay_spec d) as [H3 H4].
  destruct (Z.lt_trichotomy (YearFromDay d) y) as [Hlt|[Heq|Hgt]];
    [|assumption|].
  - pose proof (DayFromYear_mono (YearFromDay d + 1) y ltac:(lia)). lia.
  - pose proof (DayFromYear_mono (y + 1) (YearFromDay d) ltac:(lia)). lia.
Qed.

Lemma Day_MakeDate day time :
  0 <= time < msPerDay -> Day (MakeDate day time) = day.
Proof.
  intros H. unfold Day, MakeDate.
  assert (0 < msPerDay) by reflexivity.
  generalize dependent msPerDay. intros D HD H0.
  symmetry. apply (Z.div_unique _ _ _ time); lia.
Qed.

Lemma month_cases m :
  1 <= m <= 12 ->
  m = 1 \/ m = 2 \/ m = 3 \/ m = 4 \/ m = 5 \/ m = 6 \/ m = 7 \/ m = 8 \/
  m = 9 \/ m = 10 \/ m = 11 \/ m = 12.
Proof. lia. Qed.

(** The day number of a day of the calendar, month 1-based. *)
Lemma MakeDay_in_year y m d :
  1 <= m <= 12 ->
  MakeDay y (m - 1) d =
  DayFromYear y
  + DaysBeforeMonth (if DaysInYear y =? 366 then 1 else 0) (m - 1) + d - 1.
Proof.
  intros Hm. unfold MakeDay.
  replace ((m - 1) / 12) with 0 by (Z.div_mod_to_equations; lia).
  replace ((m - 1) mod 12) with (m - 1) by (Z.div_mod_to_equations; lia).
  rewrite Z.add_0_r. reflexivity.
Qed.

(** The position within its year of a day of the calendar. *)
Lemma day_within_year y m d :
  1 <= m <= 12 -> 1 <= d <= DaysInMonth y m ->
  let leap := if DaysInYear y =? 366 then 1 else 0 in
  0 <= DaysBeforeMonth leap (m - 1) + d - 1 < DaysInYear y.
Proof.
  intros Hm Hd leap. unfold DaysInMonth in Hd. fold leap in Hd.
  assert (Hleap : DaysInYear y = 365 + leap).
  { subst leap. destruct (leap_cases y) as [-> | ->]; reflexivity. }
  assert (Hl : leap = 0 \/ leap = 1).
  { subst leap. destruct (DaysInYear y =? 366); auto. }
  rewrite Hleap. clearbody leap. clear Hleap.
  destruct Hl; subst leap;
    destruct (month_cases m Hm)
      as [->|[->|[->|[->|[->|[->|[->|[->|[->|[->|[->| ->]]]]]]]]]]];
    eval_months; lia.
Qed.

Lemma YearFromTime_MakeDay y m d :
  1 <= m <= 12 -> 1 <= d <= DaysInMonth y m ->
  YearFromTime (MakeDate (MakeDay y (m - 1) d) 0) = y.
Proof.
  intros Hm Hd. unfold YearFromTime.
  rewrite Day_MakeDate by (split; reflexivity).
  rewrite MakeDay_in_year by assumption.
  apply YearFromDay_unique. rewrite DayFromYear_step.
  pose proof (day_within_year y m d Hm Hd) as H. cbn zeta in H. lia.
Qed.

Lemma MonthFromTime_MakeDay y m d :
  1 <= m <= 12 -> 1 <= d <= DaysInMonth y m ->
  MonthFromTime (MakeDate (MakeDay y (m - 1) d) 0) = m - 1.
Proof.
  intros Hm Hd. unfold MonthFromTime, DayWithinYear, InLeapYear.
  rewrite YearFromTime_MakeDay by assumption.
  rewrite Day_MakeDate by (split; reflexivity).
  rewrite MakeDay_in_year by assumption.
  unfold DaysInMonth in Hd.
  set (leap := if DaysInYear y =? 366 then 1 else 0) in *.
  assert (Hl : leap = 0 \/ leap = 1).
  { subst leap. destruct (DaysInYear y =? 366); auto. }
  clearbody leap.
  replace (DayFromYear y + DaysBeforeMonth leap (m - 1) + d - 1
           - DayFromYear y)
    with (DaysBeforeMonth leap (m - 1) + d - 1) by lia.
  destruct Hl; subst leap;
    destruct (month_cases m Hm)
      as [->|[->|[->|[->|[->|[->|[->|[->|[->|[->|[->| ->]]]]]]]]]]];
    eval_months;
    repeat match goal with
           | |- context [?a <? ?b] => destruct (Z.ltb_spec a b); try lia
           end.
Qed.

Lemma DateFromTime_MakeDay y m d :
  1 <= m <= 12 -> 1 <= d <= DaysInMonth y m ->
  DateFromTime (MakeDate (MakeDay y (m - 1) d) 0) = d.
Proof.
  intros Hm Hd. unfold DateFromTime.
  rewrite MonthFromTime_MakeDay by assumption.
  unfold DayWithinYear, InLeapYear.
  rewrite YearFromTime_MakeDay by assumption.
  rewrite Day_MakeDate by (split; reflexivity).
  rewrite MakeDay_in_year by assumption. lia.
Qed.

(** Within its month, a day of the calendar is read back unchanged. *)
Lemma civil_MakeDay y m d :
  1 <= m <= 12 -> 1 <= d <= DaysInMonth y m ->
  civil (MakeDate (MakeDay y (m - 1) d) 0) = (y, m, d).
Proof.
  intros Hm Hd. unfold civil.
  rewrite YearFromTime_MakeDay, MonthFromTime_MakeDay, DateFromTime_MakeDay
    by assumption.
  f_equal. f_equal. lia.
Qed.

End Calendar.

(** ** The slash form *)

Section Slash.

Context {HD : HostDate} {HN : HostNumber} {HL : HostNumberLaws HN}.

Lemma digit_of_range c d : digit_of c = Some d -> 0 <= d <= 9.
Proof.
  unfold digit_of. destruct (Ascii.is_nat c) as [n|] eqn:Hn; [|discriminate].
  intros [= <-]. unfold Ascii.is_nat in Hn.
  repeat match type of Hn with
         | match ?x with _ => _ end = _ => destruct x; try discriminate
         end;
    injection Hn as <-; lia.
Qed.

Lemma digits_go_range s acc z :
  0 <= acc -> digits_go acc s = Some z ->
  acc * 10 ^ Z.of_nat (String.length s) <= z
  < (acc + 1) * 10 ^ Z.of_nat (String.length s).
Proof.
  revert acc. induction s as [|c s IH]; intros acc Hacc; cbn [digits_go].
  - intros [= <-]. cbn. lia.
  - destruct (digit_of c) as [d|] eqn:Hd; [|discriminate].
    apply digit_of_range in Hd. intros H. apply IH in H; [|lia].
    cbn [String.length]. rewrite Nat2Z.inj_succ, Z.pow_succ_r by lia.
    nia.
Qed.

Lemma DecimalDigits_range s z :
  DecimalDigits s = Some z -> 0 <= z < 10 ^ Z.of_nat (String.length s).
Proof.
  unfold DecimalDigits. destruct s as [|c s]; [discriminate|].
  intros H. apply digits_go_range in H; lia.
Qed.

(** When the general parser rejects a string with three decimal
    components, [parseDate] builds the date from the components: 2000 is
    added to a year below 100, the month is taken 1-based, and the result
    is returned whenever its time value is in range. *)
Lemma parseDate_slash s ms ds ys m d y :
  Date_parse s = None ->
  split "/" s = [ms; ds; ys] ->
  DecimalDigits ms = Some m -> DecimalDigits ds = Some d ->
  DecimalDigits ys = Some y ->
  safe m -> safe d -> safe (y + 2000) ->
  parseDate (Some s) =
  (t ← TimeClip (UTC (MakeDate
                        (MakeDay (if y <? 100 then y + 2000 else y) (m - 1) d)
                        (MakeTime 0 0 0 0)));
   Some (mkDate (Some t))).
Proof.
  intros Hgen Hsplit Hm Hd Hy Sm Sd Sy.
  pose proof (DecimalDigits_range _ _ Hm) as [Hm0 _].
  pose proof (DecimalDigits_range _ _ Hd) as [Hd0 _].
  pose proof (DecimalDigits_range _ _ Hy) as [Hy0 _].
  unfold safe in *.
  assert (Z.abs 100 <= 2 ^ 53) by (cbn; lia).
  assert (Z.abs 2000 <= 2 ^ 53) by (cbn; lia).
  assert (Z.abs 1 <= 2 ^ 53) by (cbn; lia).
  assert (Hsy : Z.abs y <= 2 ^ 53) by lia.
  unfold parseDate.
  assert (Hne : falsy s = false).
  { destruct s; [discriminate Hsplit|reflexivity]. }
  rewrite Hne. unfold Date_of_string at 1. rewrite Hgen. cbn [mbind option_bind
    isValidDate DateValue].
  rewrite Hsplit. cbn [fmap list_fmap].
  rewrite (Number_digits _ _ Hm Sm), (Number_digits _ _ Hd Sd),
    (Number_digits _ _ Hy Hsy).
  rewrite num_lt_safe by assumption.
  rewrite num_sub_safe by (unfold safe; lia).
  assert (Hyr : (if y <? 100 then num_add (num_of_Z y) (num_of_Z 2000)
                 else num_of_Z y)
                = num_of_Z (if y <? 100 then y + 2000 else y)).
  { destruct (y <? 100); [|reflexivity]. apply num_add_safe; assumption. }
  rewrite Hyr. unfold Date_of_fields.
  rewrite !ToIntegerOrInfinity_safe
    by (unfold safe; destruct (y <? 100); lia).
  assert (Hfull : MakeFullYear (if y <? 100 then y + 2000 else y)
                  = if y <? 100 then y + 2000 else y).
  { unfold MakeFullYear. destruct (Z.ltb_spec y 100);
      match goal with |- context [(0 <=? ?a) && (?a <=? 99)] =>
        destruct (Z.leb_spec 0 a), (Z.leb_spec a 99); cbn; try reflexivity; lia
      end. }
  rewrite Hfull.
  destruct (TimeClip _) as [t|]; reflexivity.
Qed.

End Slash.

Section SlashRange.

Context {HD : HostDate} {HN : HostNumber} {HL : HostNumberLaws HN}.

Lemma DayFromYear_bound y :
  -366 * Z.abs (y - 1970) - 3 <= DayFromYear y <= 366 * Z.abs (y - 1970) + 3.
Proof. unfold DayFromYear. Z.div_mod_to_equations. lia. Qed.

Lemma DaysBeforeMonth_bound leap mn :
  0 <= leap <= 1 -> 0 <= mn <= 11 -> 0 <= DaysBeforeMonth leap mn <= 335.
Proof.
  intros Hl Hm.
  assert (Hlc : leap = 0 \/ leap = 1) by lia.
  assert (Hmc : mn = 0 \/ mn = 1 \/ mn = 2 \/ mn = 3 \/ mn = 4 \/ mn = 5 \/
                mn = 6 \/ mn = 7 \/ mn = 8 \/ mn = 9 \/ mn = 10 \/ mn = 11)
    by lia.
  destruct Hlc; subst leap;
    destruct Hmc as [->|[->|[->|[->|[->|[->|[->|[->|[->|[->|[->| ->]]]]]]]]]]];
    cbn; lia.
Qed.

(** Fields of at most four digits give a time value in range. *)
Lemma MakeDay_four_digits y m d :
  100 <= y <= 9999 -> 0 <= m <= 9999 -> 0 <= d <= 9999 ->
  Z.abs (LocalTZA (MakeDate (MakeDay y (m - 1) d) (MakeTime 0 0 0 0)) false)
  <= msPerDay ->
  TimeClip (UTC (MakeDate (MakeDay y (m - 1) d) (MakeTime 0 0 0 0)))
  = Some (UTC (MakeDate (MakeDay y (m - 1) d) (MakeTime 0 0 0 0))).
Proof.
  intros Hy Hm Hd.
  set (local := MakeDate (MakeDay y (m - 1) d) (MakeTime 0 0 0 0)).
  intros Htz. unfold TimeClip.
  destruct (Z.ltb_spec maxTime (Z.abs (UTC local)))
    as [Hbig|]; [exfalso|reflexivity].
  unfold UTC in Hbig. set (off := LocalTZA local false) in *. clearbody off.
  subst local. unfold MakeDate, MakeDay in Hbig.
  change (MakeTime 0 0 0 0) with 0 in Hbig.
  set (ym := y + (m - 1) / 12) in *.
  set (leap := if DaysInYear ym =? 366 then 1 else 0) in *.
  assert (Hl : 0 <= leap <= 1) by (subst leap; destruct (_ =? _); lia).
  assert (Hmn : 0 <= (m - 1) mod 12 <= 11)
    by (pose proof (Z.mod_pos_bound (m - 1) 12); lia).
  pose proof (DaysBeforeMonth_bound leap _ Hl Hmn) as Hdbm.
  pose proof (DayFromYear_bound ym) as Hdy.
  assert (Hym : 99 <= ym <= 9999 + 833).
  { subst ym. Z.div_mod_to_equations. lia. }
  clearbody leap ym.
  unfold maxTime, msPerDay in *. lia.
Qed.

End SlashRange.

(** ** The engines satisfy the laws *)

Section EngineLaws.

Import Engine.

Lemma digits_go_trimEnd s acc z : digits_go acc s = Some z -> trimEnd s = s.
Proof.
  revert acc. induction s as [|c s IH]; intros acc; cbn [digits_go trimEnd];
    [reflexivity|].
  destruct (digit_of c) as [d|] eqn:Hd; [|discriminate].
  intros H. rewrite (IH _ H). destruct s; [|reflexivity].
  destruct c as [ [] [] [] [] [] [] [] [] ]; try discriminate Hd; reflexivity.
Qed.

Lemma IntNumber_digits s z :
  DecimalDigits s = Some z -> IntNumber_of_string s = Some z.
Proof.
  unfold DecimalDigits, IntNumber_of_string, trim.
  destruct s as [|c s]; [discriminate|]. intros H.
  assert (Hstart : trimStart (String c s) = String c s).
  { cbn [trimStart]. cbn [digits_go] in H.
    destruct (digit_of c) as [d|] eqn:Hd; [|discriminate].
    destruct c as [ [] [] [] [] [] [] [] [] ]; try discriminate Hd;
      reflexivity. }
  rewrite Hstart, (digits_go_trimEnd _ _ _ H).
  cbn [digits_go] in H. destruct (digit_of c) as [d|] eqn:Hd; [|discriminate].
  destruct c as [ [] [] [] [] [] [] [] [] ]; try discriminate Hd;
    cbn [DecimalDigits digits_go]; rewrite Hd; exact H.
Qed.

Lemma IsoDate_fixed tza : FixedOffset (IsoDate tza) tza.
Proof. intros t isUTC. reflexivity. Qed.

Lemma BrowserDate_fixed tza : FixedOffset (BrowserDate tza) tza.
Proof. intros t isUTC. reflexivity. Qed.

(** In the zone of New York every instant lies within its own local day,
    the days on which the offset changes included. *)
Lemma NewYork_in_own_day t : in_own_day (HD := NewYorkDate) t.
Proof.
  unfold in_own_day, startOfDay, endOfDay, localDay, UTC, LocalTime,
    MakeDate, Day.
  cbn [LocalTZA NewYorkDate]. unfold SummerTime.
  change (MakeTime 0 0 0 0) with 0.
  change (MakeTime 23 59 59 999) with 86399999.
  unfold msPerHour, msPerDay.
  set (off := if (1710054000000 <=? t) && (t <? 1730613600000)
              then -5 * 3600000 + 3600000 else -5 * 3600000).
  assert (Hoff : (1710054000000 <= t < 1730613600000 /\ off = -14400000) \/
                 ((t < 1710054000000 \/ 1730613600000 <= t) /\
                  off = -18000000)).
  { subst off.
    destruct (Z.leb_spec 1710054000000 t), (Z.ltb_spec t 1730613600000);
      cbn [andb]; lia. }
  clearbody off.
  pose proof (Z.div_mod (t + off) 86400000 ltac:(lia)) as Hdm.
  pose proof (Z.mod_pos_bound (t + off) 86400000 ltac:(lia)) as Hmb.
  set (q := (t + off) / 86400000) in *.
  set (r := (t + off) mod 86400000) in *.
  clearbody q r.
  destruct
    (Z.leb_spec (1710054000000 + -5 * 3600000 + 3600000) (q * 86400000 + 0)),
    (Z.ltb_spec (q * 86400000 + 0) (1730613600000 + -5 * 3600000 + 3600000)),
    (Z.leb_spec (1710054000000 + -5 * 3600000 + 3600000)
       (q * 86400000 + 86399999)),
    (Z.ltb_spec (q * 86400000 + 86399999)
       (1730613600000 + -5 * 3600000 + 3600000));
    cbn [andb]; lia.
Qed.

(** There every local midnight is a local time that the zone has, at an
    offset of less than a day: the hour that is skipped begins at two. *)
Lemma NewYork_midnight day :
  let local := MakeDate day (MakeTime 0 0 0 0) in
  Z.abs (LocalTZA (HostDate := NewYorkDate) local false) <= msPerDay /\
  LocalTime (HD := NewYorkDate) (UTC (HD := NewYorkDate) local) = local.
Proof.
  cbn zeta. unfold UTC, LocalTime, MakeDate.
  cbn [LocalTZA NewYorkDate]. unfold SummerTime.
  change (MakeTime 0 0 0 0) with 0.
  unfold msPerHour, msPerDay.
  destruct
    (Z.leb_spec (1710054000000 + -5 * 3600000 + 3600000) (day * 86400000 + 0)),
    (Z.ltb_spec (day * 86400000 + 0)
       (1730613600000 + -5 * 3600000 + 3600000));
    cbn [andb];
    match goal with
    | |- context [(1710054000000 <=? ?x) && (?x <? 1730613600000)] =>
        destruct (Z.leb_spec 1710054000000 x),
                 (Z.ltb_spec x 1730613600000)
    end; cbn [andb]; lia.
Qed.

Lemma IntNumber_laws : HostNumberLaws IntNumber.
Proof.
  split; cbn.
  - intros s z H _. apply IntNumber_digits. exact H.
  - reflexivity.
  - reflexivity.
  - reflexivity.
  - reflexivity.
Qed.

End EngineLaws.

(** ** What the slash form normalises to *)

Section SlashNormal.

Context {HD : HostDate} {HN : HostNumber} {HL : HostNumberLaws HN}.

Lemma DaysInMonth_pos y m : 1 <= m <= 12 -> 28 <= DaysInMonth y m <= 31.
Proof.
  intros Hm. unfold DaysInMonth.
  destruct (DaysInYear y =? 366);
    destruct (month_cases m Hm)
      as [->|[->|[->|[->|[->|[->|[->|[->|[->|[->|[->| ->]]]]]]]]]]];
    eval_months; lia.
Qed.

(** [MakeDay] counts from the first day of the month that the month
    field reaches after its multiples of 12 are carried into the year. *)
Lemma MakeDay_carry y m d :
  MakeDay y m d = MakeDay (y + m / 12) (m mod 12 + 1 - 1) 1 + (d - 1).
Proof.
  unfold MakeDay. replace (m mod 12 + 1 - 1) with (m mod 12) by lia.
  rewrite Z.mod_mod by lia.
  replace (m mod 12 / 12) with 0
    by (pose proof (Z.mod_pos_bound m 12); Z.div_mod_to_equations; lia).
  rewrite Z.add_0_r. lia.
Qed.

(** In a zone of constant offset every local time is the local time of
    the instant the zone gives it, so that the two conditions on the zone
    in the theorems below come down to a bound on the offset. *)
Lemma LocalTime_UTC tza `{!FixedOffset HD tza} t : LocalTime (UTC t) = t.
Proof. unfold LocalTime, UTC. rewrite !(fixed_offset (tza := tza)). lia. Qed.

Lemma fixed_zone_conditions tza `{!FixedOffset HD tza} local :
  Z.abs tza <= msPerDay ->
  Z.abs (LocalTZA local false) <= msPerDay /\
  LocalTime (UTC local) = local.
Proof.
  intros H. split; [|apply (LocalTime_UTC tza)].
  rewrite (fixed_offset (tza := tza)). exact H.
Qed.

Lemma length_digits_bound s z (n : nat) :
  DecimalDigits s = Some z -> (String.length s <= n)%nat ->
  0 <= z < 10 ^ Z.of_nat n.
Proof.
  intros H Hlen. apply DecimalDigits_range in H.
  assert (10 ^ Z.of_nat (String.length s) <= 10 ^ Z.of_nat n)
    by (apply Z.pow_le_mono_r; lia).
  lia.
Qed.

(** C3, as the code has it: a slash-delimited value that the general
    parser rejects and whose three components are decimal numbers of at
    most four digits is never unparseable, whether or not the components
    form a day of the calendar.  [parseDate] returns a valid date: local
    midnight of the day that lies [d - 1] days after the first day of the
    month reached by carrying the months beyond 12 into the year.  The
    zone enters through the local midnight [local] that the fields name:
    its offset is at most a day, and the zone has that local time (no
    change of offset skips it); in a zone of constant offset the second
    condition always holds. *)
Theorem overflow_carries s ms ds ys m d y :
  Date_parse s = None ->
  split "/" s = [ms; ds; ys] ->
  DecimalDigits ms = Some m ->
  DecimalDigits ds = Some d ->
  DecimalDigits ys = Some y ->
  (String.length ms <= 4)%nat ->
  (String.length ds <= 4)%nat ->
  (String.length ys <= 4)%nat ->
  let local :=
    MakeDate (MakeDay (if y <? 100 then y + 2000 else y) (m - 1) d)
      (MakeTime 0 0 0 0) in
  Z.abs (LocalTZA local false) <= msPerDay ->
  LocalTime (UTC local) = local ->
  exists t first,
    parseDate (Some s) = Some (mkDate (Some t)) /\
    isValidDate (mkDate (Some t)) = true /\
    civil (MakeDate first 0) =
      ((if y <? 100 then y + 2000 else y) + (m - 1) / 12,
       (m - 1) mod 12 + 1, 1) /\
    LocalTime t = MakeDate (first + (d - 1)) 0.
Proof.
  intros Hgen Hsplit Hm Hd Hy Lm Ld Ly local Htz Hback. subst local.
  pose proof (length_digits_bound _ _ 4 Hm Lm) as Bm.
  pose proof (length_digits_bound _ _ 4 Hd Ld) as Bd.
  pose proof (length_digits_bound _ _ 4 Hy Ly) as By.
  change (10 ^ Z.of_nat 4) with 10000 in *.
  set (yr := if y <? 100 then y + 2000 else y) in *.
  assert (Hyr : 100 <= yr <= 9999)
    by (subst yr; destruct (Z.ltb_spec y 100); lia).
  rewrite (parseDate_slash s ms ds ys m d y) by
    (try assumption; unfold safe; cbn; lia).
  fold yr. rewrite MakeDay_four_digits by (assumption || lia).
  cbn [mbind option_bind].
  exists (UTC (MakeDate (MakeDay yr (m - 1) d) (MakeTime 0 0 0 0))),
         (MakeDay (yr + (m - 1) / 12) ((m - 1) mod 12 + 1 - 1) 1).
  split; [reflexivity|]. split; [reflexivity|]. split.
  - pose proof (Z.mod_pos_bound (m - 1) 12 ltac:(lia)).
    apply civil_MakeDay; [lia|].
    pose proof (DaysInMonth_pos (yr + (m - 1) / 12) ((m - 1) mod 12 + 1)
                  ltac:(lia)).
    lia.
  - rewrite Hback, <- MakeDay_carry. reflexivity.
Qed.

(** C5, as the code has it: when the general parser rejects a
    slash-delimited value with three decimal components whose year has
    fewer than three digits, [parseDate] adds 2000 to the year and builds
    the date from (year, month - 1, day); for a month 1..12 and a day of
    that month the result is local midnight of that day of the
    calendar, in a zone that has that local midnight at an offset of at
    most a day (every local midnight of a zone of constant offset). *)
Theorem two_digit_year s ms ds ys m d y :
  Date_parse s = None ->
  split "/" s = [ms; ds; ys] ->
  DecimalDigits ms = Some m ->
  DecimalDigits ds = Some d ->
  DecimalDigits ys = Some y ->
  (String.length ys < 3)%nat ->
  safe m -> safe d ->
  parseDate (Some s) =
    (t ← TimeClip (UTC (MakeDate (MakeDay (y + 2000) (m - 1) d)
                          (MakeTime 0 0 0 0)));
     Some (mkDate (Some t))) /\
  (1 <= m <= 12 -> 1 <= d <= DaysInMonth (y + 2000) m ->
   let local :=
     MakeDate (MakeDay (y + 2000) (m - 1) d) (MakeTime 0 0 0 0) in
   Z.abs (LocalTZA local false) <= msPerDay ->
   LocalTime (UTC local) = local ->
   exists t,
     parseDate (Some s) = Some (mkDate (Some t)) /\
     civil (LocalTime t) = (y + 2000, m, d)).
Proof.
  intros Hgen Hsplit Hm Hd Hy Ly Sm Sd.
  pose proof (length_digits_bound _ _ 2 Hy ltac:(lia)) as By.
  change (10 ^ Z.of_nat 2) with 100 in By.
  assert (Hlt : (y <? 100) = true) by (apply Z.ltb_lt; lia).
  pose proof (parseDate_slash s ms ds ys m d y Hgen Hsplit Hm Hd Hy Sm Sd
                ltac:(unfold safe; cbn; lia)) as Hp.
  rewrite Hlt in Hp. split; [exact Hp|].
  intros Bm Bd local Htz Hback. subst local. rewrite Hp.
  pose proof (DaysInMonth_pos (y + 2000) m Bm).
  rewrite MakeDay_four_digits by (assumption || lia).
  cbn [mbind option_bind].
  eexists. split; [reflexivity|].
  rewrite Hback. apply civil_MakeDay; assumption.
Qed.

End SlashNormal.

(** ** The scenarios, run *)

Section Runs.

Import Engine Scenario.

Lemma filter_partition_witness :
  DateValue (range_start (HD := browser) "2024-01-01") = Some 1704067200000 /\
  DateValue (range_end (HD := browser) "2024-01-31") = Some 1706745599999 /\
  (Array_filter
     (keepRow (HD := browser) (HN := IntNumber) "Date"
        (range_start (HD := browser) "2024-01-01")
        (range_end (HD := browser) "2024-01-31"))
     rowsA empty_locals).1 =
  List.filter
    (fun r : Row =>
       within 1704067200000 1706745599999
         (parseDate (HD := browser) (HN := IntNumber) (r !! "Date")))
    rowsA.
Proof.
  split; [reflexivity|]. split; [reflexivity|].
  destruct (filter_partition (HD := browser) (HN := IntNumber)
              rowsA "Date" "2024-01-01" "2024-01-31"
              1704067200000 1706745599999 eq_refl eq_refl)
    as (t0 & t1 & _ & _ & _ & _ & H & _).
  exact H.
Defined.

Lemma counts_add_up_witness :
  findColumn (meta_fields resultA) (dateColumn (st january)) = Some "Date" /\
  falsy "Date" = false /\
  let w' := exec (processCSVFile_complete (HD := browser) (HN := IntNumber)
                    resultA) january in
  (processedCount (st w') + skippedCount (st w') = totalRows (st w'))%nat.
Proof.
  split; [reflexivity|]. split; [reflexivity|].
  exact (proj2 (proj2 (proj2
           (counts_add_up (HD := browser) (HN := IntNumber)
              resultA january "Date" eq_refl eq_refl)))).
Defined.

Lemma all_skipped_witness :
  findColumn (meta_fields resultE) (dateColumn (st january)) = Some "Date" /\
  falsy "Date" = false /\
  let w' := exec (processCSVFile_complete (HD := browser) (HN := IntNumber)
                    resultE) january in
  processedCount (st w') = 0%nat /\
  skippedCount (st w') = 2%nat /\
  error (st w') = "No valid data found within the specified date range." /\
  fx w' = [].
Proof.
  split; [reflexivity|]. split; [reflexivity|].
  assert (Hall : forall r, In r (data resultE) ->
            keeps (HD := browser) (HN := IntNumber) "Date"
              (range_start (HD := browser) (startDate (st january)))
              (range_end (HD := browser) (endDate (st january))) r = false).
  { intros r [<-|[<-|[]]]; reflexivity. }
  destruct (all_skipped (HD := browser) (HN := IntNumber)
              resultE january "Date" eq_refl eq_refl Hall)
    as (_ & Hp & Hs & _ & He & Hf).
  repeat split; assumption.
Defined.


Lemma invalid_range_witness :
  (exists ts te,
     DateValue (Date_of_string (HD := browser) (startDate (st reversed)))
       = Some ts /\
     DateValue (Date_of_string (HD := browser) (endDate (st reversed)))
       = Some te /\
     te < ts) /\
  let w' := exec (processFile (HD := browser)) reversed in
  error (st w') = "End Date cannot be earlier than Start Date." /\
  totalRows (st w') = 0%nat /\
  fx w' = [].
Proof.
  assert (Hrev : exists ts te,
     DateValue (Date_of_string (HD := browser) (startDate (st reversed)))
       = Some ts /\
     DateValue (Date_of_string (HD := browser) (endDate (st reversed)))
       = Some te /\
     te < ts).
  { exists 1706745600000, 1704067200000. repeat split. }
  split; [exact Hrev|].
  destruct (invalid_range (HD := browser) reversed
              (or_intror (or_intror Hrev)))
    as (_ & _ & _ & _ & Ht & _ & Hf).
  split; [reflexivity|]. split; assumption.
Defined.

Lemma overflow_carries_witness :
  Date_parse (HostDate := browser) "13/40/2024" = None /\
  split "/" "13/40/2024" = ["13"; "40"; "2024"] /\
  exists t,
    parseDate (HD := browser) (HN := IntNumber) (Some "13/40/2024")
    = Some (mkDate (Some t)) /\
    civil (LocalTime (HD := browser) t) = (2025, 2, 9).
Proof.
  split; [reflexivity|]. split; [reflexivity|].
  destruct (overflow_carries (HD := browser) (HL := IntNumber_laws)
              "13/40/2024" "13" "40" "2024" 13 40 2024
              eq_refl eq_refl eq_refl eq_refl eq_refl
              ltac:(vm_compute; lia) ltac:(vm_compute; lia)
              ltac:(vm_compute; lia) ltac:(apply Z.leb_le; reflexivity)
              eq_refl)
    as (t & first & Hp & _ & _ & _).
  exists t. split; [exact Hp|].
  assert (Ht : Some (mkDate (Some t)) = Some (mkDate (Some 1739059200000)))
    by (rewrite <- Hp; reflexivity).
  injection Ht as ->. reflexivity.
Defined.

(** In a browser the impossible date ["13/40/2024"] is not unparseable:
    it normalises to 9 February 2025. *)
Lemma impossible_date_accepted :
  parseDate (HD := browser) (HN := IntNumber) (Some "13/40/2024") <> None /\
  parseDate (HD := browser) (HN := IntNumber) (Some "13/40/2024")
  = Some (mkDate (Some 1739059200000)) /\
  civil 1739059200000 = (2025, 2, 9).
Proof. split; [discriminate|]. split; reflexivity. Qed.

Lemma two_digit_year_witness :
  Date_parse (HostDate := iso) "3/5/23" = None /\
  split "/" "3/5/23" = ["3"; "5"; "23"] /\
  exists t,
    parseDate (HD := iso) (HN := IntNumber) (Some "3/5/23")
    = Some (mkDate (Some t)) /\
    civil (LocalTime (HD := iso) t) = (2023, 3, 5).
Proof.
  split; [reflexivity|]. split; [reflexivity|].
  apply (two_digit_year (HD := iso) (HL := IntNumber_laws)
           "3/5/23" "3" "5" "23" 3 5 23
           eq_refl eq_refl eq_refl eq_refl eq_refl
           ltac:(vm_compute; lia) ltac:(apply Z.leb_le; reflexivity)
           ltac:(apply Z.leb_le; reflexivity)).
  - lia.
  - split; apply Z.leb_le; reflexivity.
  - apply Z.leb_le. reflexivity.
  - reflexivity.
Defined.

(** ["3/5/73"] splits into three numeric components with a two-digit
    year, and a browser reads it as 5 March 1973, which [parseDate]
    returns: 2000 is not added to the year. *)
Lemma two_digit_year_general_parser :
  split "/" "3/5/73" = ["3"; "5"; "73"] /\
  parseDate (HD := browser) (HN := IntNumber) (Some "3/5/73")
  <> Some (Date_of_fields (HD := browser) (HN := IntNumber)
             (num_of_Z (73 + 2000)) (num_of_Z (3 - 1)) (num_of_Z 5)) /\
  (exists t,
     parseDate (HD := browser) (HN := IntNumber) (Some "3/5/73")
     = Some (mkDate (Some t)) /\
     civil (LocalTime (HD := browser) t) = (1973, 3, 5)).
Proof.
  split; [reflexivity|]. split; [vm_compute; discriminate|].
  exists 100137600000. split; reflexivity.
Qed.

(** Scenario A, whole: one row kept and saved, rows 3 and 4 skipped. *)
Example scenario_A :
  let w' := exec (processCSVFile_complete (HD := browser) (HN := IntNumber)
                    resultA) january in
  totalRows (st w') = 3%nat /\
  processedCount (st w') = 1%nat /\
  skippedCount (st w') = 2%nat /\
  rowNumber <$> skippedRows (st w') = [3%nat; 4%nat] /\
  error (st w') = EmptyString /\
  fx w' =
    [SaveAs [row "Date" "2024-01-15"]
       "filtered_data_2024-01-01_to_2024-01-31.xlsx";
     Alert ("Processed Rows: 1" +:+ newline +:+ "Skipped Rows: 2")].
Proof. vm_compute. repeat split. Qed.

(** Scenario B: the same day, whether the engine reads the slash form
    itself or leaves it to [parseDate]. *)
Example scenario_B :
  parseDate (HD := browser) (HN := IntNumber) (Some "3/5/23")
  = Some (mkDate (Some 1677974400000)) /\
  parseDate (HD := iso) (HN := IntNumber) (Some "3/5/23")
  = Some (mkDate (Some 1677974400000)) /\
  civil 1677974400000 = (2023, 3, 5) /\
  keeps (HD := browser) (HN := IntNumber) "Date"
    (range_start (HD := browser) "2023-03-01")
    (range_end (HD := browser) "2023-03-31") (row "Date" "3/5/23") = true.
Proof. repeat split. Qed.

(** A header that is the empty string is found by [findColumn] and then
    taken for no header by the handler's test of the result. *)
Example empty_header :
  findColumn [EmptyString; "Name"] EmptyString = Some EmptyString /\
  let w' := exec (processCSVFile_complete (HD := browser) (HN := IntNumber)
                    {| data := rowsA; meta_fields := [EmptyString; "Name"] |})
              (initial "2024-01-01" "2024-01-31" EmptyString) in
  error (st w') =
    "The CSV does not contain a " +:+ quote +:+ quote
    +:+ " column. Please check the column name." /\
  fx w' = [].
Proof. repeat split. Qed.

(** The range ends are days of local time, while a date-only string is
    read as midnight UTC: five hours west of UTC the range
    2024-01-01 .. 2024-01-31 runs from the first millisecond of
    31 December to the last millisecond of 30 January, local time. *)
Example range_west_of_UTC :
  let west := BrowserDate (-5 * msPerHour) in
  exists s e,
    DateValue (range_start (HD := west) "2024-01-01") = Some s /\
    DateValue (range_end (HD := west) "2024-01-31") = Some e /\
    civil (LocalTime (HD := west) s) = (2023, 12, 31) /\
    TimeWithinDay (LocalTime (HD := west) s) = 0 /\
    civil (LocalTime (HD := west) e) = (2024, 1, 30) /\
    TimeWithinDay (LocalTime (HD := west) e) = MakeTime 23 59 59 999.
Proof. eexists _, _. repeat split. Qed.

(** C1, at a failing input: five hours west of UTC, with the range
    2024-01-01 .. 2024-01-31, the run keeps the record dated 12/31/2023
    and skips the record dated 1/31/2024.  The first is local midnight of
    the day before the start day, outside the interval
    [startDay 00:00:00.000, endDay 23:59:59.999] of local time; the second
    is local midnight of the end day, inside it. *)
Theorem range_a_day_early :
  let west := MoreInputs.west in
  let table :=
    {| data := [row "Date" "12/31/2023"; row "Date" "1/31/2024"];
       meta_fields := ["Date"] |} in
  let w' :=
    exec (processCSVFile_complete (HD := west) (HN := IntNumber) table)
      (initial "2024-01-01" "2024-01-31" "Date") in
  let startDay :=
    UTC (HD := west) (MakeDate (MakeDay 2024 0 1) (MakeTime 0 0 0 0)) in
  let endDay :=
    UTC (HD := west) (MakeDate (MakeDay 2024 0 31) (MakeTime 23 59 59 999)) in
  fx w' =
    [SaveAs [row "Date" "12/31/2023"]
       "filtered_data_2024-01-01_to_2024-01-31.xlsx";
     Alert ("Processed Rows: 1" +:+ newline +:+ "Skipped Rows: 1")] /\
  skippedRows (st w') =
    [{| rowNumber := 3; reason := "Date out of range or invalid format" |}] /\
  parseDate (HD := west) (HN := IntNumber) (Some "12/31/2023")
  = Some (mkDate (Some 1703998800000)) /\
  civil (LocalTime (HD := west) 1703998800000) = (2023, 12, 31) /\
  1703998800000 < startDay /\
  parseDate (HD := west) (HN := IntNumber) (Some "1/31/2024")
  = Some (mkDate (Some 1706677200000)) /\
  civil (LocalTime (HD := west) 1706677200000) = (2024, 1, 31) /\
  startDay <= 1706677200000 <= endDay.
Proof.
  cbn zeta.
  split; [vm_compute; reflexivity|]. split; [vm_compute; reflexivity|].
  split; [vm_compute; reflexivity|]. split; [vm_compute; reflexivity|].
  split; [apply Z.ltb_lt; vm_compute; reflexivity|].
  split; [vm_compute; reflexivity|]. split; [vm_compute; reflexivity|].
  split; apply Z.leb_le; vm_compute; reflexivity.
Qed.

(** On the day daylight saving time starts in New York the end of the
    range is read with the offset in force at the end of that day: the
    range 2024-03-10 .. 2024-03-11 runs from local midnight of 9 March to
    the last millisecond of 10 March and lasts 47 hours. *)
Example range_across_daylight_saving :
  DateValue (range_start (HD := NewYorkDate) "2024-03-10")
  = Some 1709960400000 /\
  DateValue (range_end (HD := NewYorkDate) "2024-03-11")
  = Some 1710129599999 /\
  civil (LocalTime (HD := NewYorkDate) 1709960400000) = (2024, 3, 9) /\
  civil (LocalTime (HD := NewYorkDate) 1710129599999) = (2024, 3, 10) /\
  1710129599999 - 1709960400000 + 1 = 47 * msPerHour.
Proof. repeat split. Qed.

End Runs.

(** ** More on strings *)

Section MoreStrings.

Lemma split_nonempty sep s : split sep s <> [].
Proof.
  destruct s as [|c s]; cbn; [discriminate|].
  destruct (Ascii.eqb c sep); [discriminate|].
  destruct (split sep s); discriminate.
Qed.

Lemma split_no_sep sep s : has_char sep s = false -> split sep s = [s].
Proof.
  induction s as [|c s IH]; cbn; [reflexivity|].
  destruct (Ascii.eqb c sep); cbn; [discriminate|].
  intros H. rewrite (IH H). reflexivity.
Qed.

Lemma split_length sep s : length (split sep s) = S (count_char sep s).
Proof.
  induction s as [|c s IH]; cbn [split count_char]; [reflexivity|].
  destruct (Ascii.eqb c sep); cbn [length Nat.add].
  - rewrite IH. reflexivity.
  - destruct (split sep s) as [|part parts] eqn:Hs; [discriminate IH|].
    cbn [length] in *. exact IH.
Qed.

Lemma last_cons_nonempty {A} (x : A) l d :
  l <> [] -> List.last (x :: l) d = List.last l d.
Proof. destruct l; [contradiction|reflexivity]. Qed.

Lemma last_head_change {A} (x y : A) l d :
  l <> [] -> List.last (x :: l) d = List.last (y :: l) d.
Proof. intros H. rewrite !last_cons_nonempty by exact H. reflexivity. Qed.

(** What follows the last separator is the last part. *)
Lemma last_split sep base ext :
  has_char sep ext = false ->
  List.last (split sep (base +:+ String sep ext)) EmptyString = ext.
Proof.
  intros Hext. induction base as [|c base IH].
  - change (EmptyString +:+ String sep ext) with (String sep ext).
    cbn [split]. rewrite Ascii.eqb_refl.
    rewrite last_cons_nonempty by apply split_nonempty.
    rewrite (split_no_sep _ _ Hext). reflexivity.
  - change (String c base +:+ String sep ext)
      with (String c (base +:+ String sep ext)).
    cbn [split]. destruct (Ascii.eqb c sep).
    + rewrite last_cons_nonempty by apply split_nonempty. exact IH.
    + destruct (split sep (base +:+ String sep ext)) as [|part parts] eqn:Hs;
        [destruct (split_nonempty _ _ Hs)|].
      destruct parts as [|part' parts].
      * cbn in IH. subst part.
        exfalso. pose proof (split_length sep (base +:+ String sep ext)) as Hl.
        rewrite Hs in Hl. cbn [length] in Hl.
        assert (Hc : (1 <= count_char sep (base +:+ String sep ext))%nat).
        { clear. induction base as [|a base IHb].
          - change (EmptyString +:+ String sep ext) with (String sep ext).
            cbn [count_char]. rewrite Ascii.eqb_refl. lia.
          - change (String a base +:+ String sep ext)
              with (String a (base +:+ String sep ext)).
            cbn [count_char]. lia. }
        lia.
      * rewrite (last_head_change (String c part) part) by discriminate.
        exact IH.
Qed.

Lemma trimStart_starts_tight s : starts_tight (trimStart s) = true.
Proof.
  induction s as [|c s IH]; cbn; [reflexivity|].
  destruct (Ascii.is_space c) eqn:Hc; [exact IH|]. cbn. rewrite Hc. reflexivity.
Qed.

Lemma trimEnd_ends_tight s : ends_tight (trimEnd s) = true.
Proof.
  induction s as [|c s IH]; cbn [trimEnd]; [reflexivity|].
  destruct (trimEnd s) as [|c' t] eqn:Ht.
  - destruct (Ascii.is_space c) eqn:Hc; cbn; [reflexivity|].
    rewrite Hc. reflexivity.
  - exact IH.
Qed.

Lemma trimEnd_head s c t : trimEnd s = String c t -> exists t', s = String c t'.
Proof.
  destruct s as [|a s]; cbn [trimEnd]; [discriminate|].
  destruct (trimEnd s); [destruct (Ascii.is_space a)|];
    intros [= <- <-] || discriminate; eauto.
Qed.

Lemma trimEnd_starts_tight s :
  starts_tight s = true -> starts_tight (trimEnd s) = true.
Proof.
  intros H. destruct (trimEnd s) as [|c t] eqn:Ht; [reflexivity|].
  apply trimEnd_head in Ht as [t' ->]. exact H.
Qed.

(** Trimming twice is trimming once. *)
Lemma trim_idempotent s : trim (trim s) = trim s.
Proof.
  unfold trim at 1.
  rewrite trimStart_tight
    by (unfold trim; apply trimEnd_starts_tight, trimStart_starts_tight).
  apply trimEnd_tight. unfold trim. apply trimEnd_ends_tight.
Qed.

End MoreStrings.

(** ** The button and the input handlers *)

Section Handlers.

Context {HD : HostDate} {HN : HostNumber}.

(** [processFile] when both dates are present and the end is not before
    the start: the error and the counts are cleared, then the file decides. *)
Lemma processFile_valid w :
  falsy (startDate (st w)) = false -> falsy (endDate (st w)) = false ->
  date_lt (Date_of_string (endDate (st w)))
    (Date_of_string (startDate (st w))) = false ->
  exec processFile w =
  exec
    match file (st w) with
    | Some f =>
        let fileType :=
          toLowerCase (List.last (split "." (name f)) EmptyString) in
        if String.eqb fileType "csv" then processCSVFile f
        else if String.eqb fileType "xlsx" || String.eqb fileType "xls" then
          processExcelFile f
        else
          setError "Unsupported file type. Please upload a CSV or Excel file."
    | None => setError "Please upload a file."
    end
    (exec (setError EmptyString;; resetCountsAndData) w).
Proof.
  intros Hs He Hord.
  unfold exec, processFile, resetCountsAndData, validateDates, mbind, M_bind.
  cbn [setError setProcessedCount setSkippedCount setSkippedRows setTotalRows
       modify get st startDate endDate fst snd file].
  rewrite Hs, He, Hord. cbn [orb mret M_ret negb st file]. reflexivity.
Qed.

Lemma falsy_false s : falsy s = false <-> s <> EmptyString.
Proof. destruct s; cbn; split; congruence. Qed.

(** X1: with both dates present and in order, a file named [*.csv] starts
    the CSV decoder, a file named [*.xlsx] or [*.xls] starts the reader, and
    any other file gets the unsupported-type message and starts nothing;
    in every case the counts are reset. *)
Theorem file_type_dispatch w f :
  startDate (st w) <> EmptyString -> endDate (st w) <> EmptyString ->
  date_lt (Date_of_string (endDate (st w)))
    (Date_of_string (startDate (st w))) = false ->
  file (st w) = Some f ->
  let fileType := toLowerCase (List.last (split "." (name f)) EmptyString) in
  let w' := exec processFile w in
  (fileType = "csv" ->
   fx w' = (fx w ++ [PapaParse f])%list /\ processing (st w') = true /\
   error (st w') = EmptyString) /\
  (fileType = "xlsx" \/ fileType = "xls" ->
   fx w' = (fx w ++ [ReadAsArrayBuffer f])%list /\
   processing (st w') = true /\ error (st w') = EmptyString) /\
  (fileType <> "csv" -> fileType <> "xlsx" -> fileType <> "xls" ->
   fx w' = fx w /\ processing (st w') = processing (st w) /\
   error (st w') =
     "Unsupported file type. Please upload a CSV or Excel file.") /\
  processedCount (st w') = 0%nat /\ skippedCount (st w') = 0%nat /\
  skippedRows (st w') = [] /\ totalRows (st w') = 0%nat.
Proof.
  intros Hs He Hord Hf fileType w'. subst w'.
  rewrite processFile_valid by (try apply falsy_false; assumption).
  rewrite Hf. cbn zeta. fold fileType.
  destruct (String.eqb_spec fileType "csv") as [Hcsv|Hcsv].
  { repeat split; try reflexivity; intros; try reflexivity.
    - destruct H as [H|H]; rewrite H in Hcsv; discriminate.
    - contradiction.
    - contradiction.
    - contradiction. }
  destruct (String.eqb_spec fileType "xlsx") as [Hx|Hx];
    [|destruct (String.eqb_spec fileType "xls") as [Hxl|Hxl]]; cbn [orb];
    repeat split; try reflexivity; intros; try contradiction;
    try reflexivity;
    match goal with
    | H : _ \/ _ |- _ => destruct H; contradiction
    end.
Qed.

(** X2: the file type is what follows the last dot of the file name, in
    lower case; a name without a dot is its own file type. *)
Theorem file_type_extension base ext :
  has_char "." ext = false ->
  toLowerCase (List.last (split "." (base +:+ String "." ext)) EmptyString)
  = toLowerCase ext /\
  toLowerCase (List.last (split "." ext) EmptyString) = toLowerCase ext.
Proof.
  intros H. rewrite (last_split "." base ext H), (split_no_sep _ _ H).
  split; reflexivity.
Qed.

(** X3: when the button is enabled, [processFile] never reports a missing
    file or a missing date.  It either starts the decoder or the reader,
    with the error cleared and the busy flag set, or it reports that the
    end date is earlier than the start date or that the file type is not
    supported, and starts nothing. *)
Theorem enabled_button w :
  buttonDisabled (st w) = false ->
  let w' := exec processFile w in
  (exists f, file (st w) = Some f /\
     (fx w' = (fx w ++ [PapaParse f])%list \/
      fx w' = (fx w ++ [ReadAsArrayBuffer f])%list) /\
     processing (st w') = true /\ error (st w') = EmptyString) \/
  (fx w' = fx w /\ processing (st w') = false /\
   (error (st w') = "End Date cannot be earlier than Start Date." \/
    error (st w') =
      "Unsupported file type. Please upload a CSV or Excel file.")).
Proof.
  intros H. cbn zeta. unfold buttonDisabled in H.
  apply orb_false_iff in H as [H Hproc].
  apply orb_false_iff in H as [H He].
  apply orb_false_iff in H as [Hf Hs].
  destruct (file (st w)) as [f|] eqn:Hfile; [clear Hf|discriminate].
  destruct (date_lt (Date_of_string (endDate (st w)))
              (Date_of_string (startDate (st w)))) eqn:Hord.
  - right.
    unfold exec, processFile, resetCountsAndData, validateDates, mbind, M_bind.
    cbn [setError setProcessedCount setSkippedCount setSkippedRows
         setTotalRows modify get st startDate endDate fst snd file].
    rewrite Hs, He, Hord. cbn. auto.
  - rewrite processFile_valid by assumption. rewrite Hfile. cbn zeta.
    destruct (String.eqb _ "csv").
    + left. exists f. repeat split; auto.
    + destruct (String.eqb _ "xlsx" || String.eqb _ "xls").
      * left. exists f. repeat split; auto.
      * right. cbn. auto.
Qed.

(** X15: [handleDateColumnChange] stores the trimmed value, and the
    stored name finds the column that the value as typed finds. *)
Theorem typed_column headers value w :
  let w' := exec (handleDateColumnChange value) w in
  dateColumn (st w') = trim value /\
  findColumn headers (dateColumn (st w')) = findColumn headers value.
Proof.
  cbn zeta. split; [reflexivity|].
  unfold findColumn. cbn [exec handleDateColumnChange setDateColumn modify snd
    st dateColumn]. rewrite trim_idempotent. reflexivity.
Qed.

End Handlers.

(** ** More on the filter pass *)

Section MoreFilter.

Context {HD : HostDate} {HN : HostNumber}.

(** A valid [new Date(s)] is what [parseDate] returns. *)
Lemma parseDate_general s :
  falsy s = false -> isValidDate (Date_of_string s) = true ->
  parseDate (Some s) = Some (Date_of_string s).
Proof. intros Hs Hv. unfold parseDate. rewrite Hs, Hv. reflexivity. Qed.

(** An instant lies within its own local day when the zone reads the
    two ends of that day with the offset in force at the instant. *)
Lemma same_offset_in_own_day t :
  LocalTZA (MakeDate (localDay t) (MakeTime 0 0 0 0)) false
  = LocalTZA t true ->
  LocalTZA (MakeDate (localDay t) (MakeTime 23 59 59 999)) false
  = LocalTZA t true ->
  in_own_day t.
Proof.
  unfold in_own_day, startOfDay, endOfDay, UTC. intros -> ->.
  unfold localDay, LocalTime, MakeDate, Day.
  change (MakeTime 0 0 0 0) with 0.
  change (MakeTime 23 59 59 999) with (msPerDay - 1).
  assert (Hpos : 0 < msPerDay) by reflexivity.
  generalize dependent msPerDay. intros D HD0.
  generalize (LocalTZA t true). intros off.
  pose proof (Z.div_mod (t + off) D ltac:(lia)) as Hdm.
  pose proof (Z.mod_pos_bound (t + off) D HD0) as Hmb.
  set (q := (t + off) / D) in *. set (r := (t + off) mod D) in *.
  nia.
Qed.

(** In a zone of constant offset every instant does. *)
Lemma day_of_instant tza `{!FixedOffset HD tza} t : in_own_day t.
Proof.
  apply same_offset_in_own_day; rewrite !(fixed_offset (tza := tza));
    reflexivity.
Qed.

Lemma localDay_mono t t' :
  LocalTime t <= LocalTime t' -> localDay t <= localDay t'.
Proof.
  intros H. unfold localDay, Day.
  apply Z.div_le_mono; [reflexivity|exact H].
Qed.

Lemma filter_sublist {A} (p : A -> bool) (l : list A) :
  sublist (List.filter p l) l.
Proof.
  induction l as [|x l IH]; cbn; [constructor|].
  destruct (p x); [apply sublist_skip|apply sublist_cons]; exact IH.
Qed.

Lemma filter_sublist_filter {A} (p q : A -> bool) (l : list A) :
  (forall x, p x = true -> q x = true) ->
  sublist (List.filter p l) (List.filter q l).
Proof.
  intros Hpq. induction l as [|x l IH]; cbn; [constructor|].
  destruct (p x) eqn:Hp.
  - rewrite (Hpq x Hp). apply sublist_skip. exact IH.
  - destruct (q x); [apply sublist_cons|]; exact IH.
Qed.

Lemma filter_filter_same {A} (p : A -> bool) (l : list A) :
  List.filter p (List.filter p l) = List.filter p l.
Proof.
  induction l as [|x l IH]; cbn; [reflexivity|].
  destruct (p x) eqn:Hp; cbn; rewrite ?Hp, IH; reflexivity.
Qed.

Lemma skipEntries_none {A} (p : A -> bool) index (l : list A) :
  (forall x, In x l -> p x = true) -> skipEntries p index l = [].
Proof.
  revert index. induction l as [|x l IH]; intros index Hall; cbn;
    [reflexivity|].
  rewrite (Hall x) by (cbn; auto). apply IH. intros y Hy. apply Hall.
  cbn. auto.
Qed.

Lemma skipEntries_lower {A} (p : A -> bool) index (l : list A) entry :
  In entry (skipEntries p index l) -> (index + 2 <= rowNumber entry)%nat.
Proof.
  intros H. apply skipEntries_elem in H as (i & x & _ & _ & ->). cbn. lia.
Qed.

Lemma skipEntries_increasing {A} (p : A -> bool) index (l : list A) :
  forall (i j : nat) a b,
    skipEntries p index l !! i = Some a ->
    skipEntries p index l !! j = Some b ->
    (i < j)%nat -> (rowNumber a < rowNumber b)%nat.
Proof.
  revert index. induction l as [|x l IH]; intros index i j a b; cbn.
  - intros H. discriminate.
  - destruct (p x); [apply IH|].
    destruct i as [|i], j as [|j]; cbn; intros Ha Hb Hij; try lia.
    + injection Ha as <-. cbn.
      pose proof (skipEntries_lower p (S index) l b) as Hl.
      assert (In b (skipEntries p (S index) l))
        by (apply list_elem_of_In, list_elem_of_lookup; eauto).
      specialize (Hl H). lia.
    + apply (IH (S index) i j); [assumption|assumption|lia].
Qed.

Lemma skipEntries_reason {A} (p : A -> bool) index (l : list A) entry :
  In entry (skipEntries p index l) ->
  reason entry = "Date out of range or invalid format".
Proof.
  intros H. apply skipEntries_elem in H as (i & x & _ & _ & ->). reflexivity.
Qed.

(** X4: the range is inclusive for the range dates themselves: with both
    ends valid and the end not before the start, a row whose cell is the
    very string given as start date or as end date is kept, in a zone
    where the two instants lie within their own local days, as every
    instant does in a zone of constant offset ([day_of_instant]) and in
    the zone of New York ([NewYork_in_own_day]). *)
Theorem range_dates_kept col sd ed s e ts te (row : Row) :
  sd <> EmptyString -> ed <> EmptyString ->
  DateValue (Date_of_string sd) = Some ts ->
  DateValue (Date_of_string ed) = Some te ->
  ts <= te ->
  in_own_day ts -> in_own_day te ->
  DateValue (range_start sd) = Some s ->
  DateValue (range_end ed) = Some e ->
  row !! col = Some sd \/ row !! col = Some ed ->
  keeps col (range_start sd) (range_end ed) row = true.
Proof.
  intros Hsd Hed Hts Hte Hle [Hs1 Hs2] [He1 He2] Hs He Hcell.
  rewrite (keeps_within _ _ _ _ _ _ Hs He).
  destruct (range_start_startOfDay _ _ Hs) as (t0 & Ht0 & ->).
  destruct (range_end_endOfDay _ _ He) as (t1 & Ht1 & ->).
  assert (t0 = ts) as -> by congruence.
  assert (t1 = te) as -> by congruence.
  assert (Hvs : parseDate (Some sd) = Some (mkDate (Some ts))).
  { rewrite parseDate_general.
    - destruct (Date_of_string sd) as [v]. cbn in Hts. subst v. reflexivity.
    - apply falsy_false. exact Hsd.
    - unfold isValidDate. rewrite Hts. reflexivity. }
  assert (Hve : parseDate (Some ed) = Some (mkDate (Some te))).
  { rewrite parseDate_general.
    - destruct (Date_of_string ed) as [v]. cbn in Hte. subst v. reflexivity.
    - apply falsy_false. exact Hed.
    - unfold isValidDate. rewrite Hte. reflexivity. }
  destruct Hcell as [-> | ->]; [rewrite Hvs|rewrite Hve]; cbn [within];
    apply andb_true_iff; split; apply Z.leb_le; lia.
Qed.

(** X5: a range that encloses another keeps every row the other keeps, in
    the same order, and skips no row the other keeps. *)
Theorem wider_range (rows : list Row) col sd ed sd' ed' s e s' e' :
  DateValue (range_start sd) = Some s ->
  DateValue (range_end ed) = Some e ->
  DateValue (range_start sd') = Some s' ->
  DateValue (range_end ed') = Some e' ->
  s' <= s -> e <= e' ->
  let narrow :=
    Array_filter (keepRow col (range_start sd) (range_end ed)) rows
      {| processed := 0; skipped := 0; skippedRowsLocal := [] |} in
  let wide :=
    Array_filter (keepRow col (range_start sd') (range_end ed')) rows
      {| processed := 0; skipped := 0; skippedRowsLocal := [] |} in
  sublist narrow.1 wide.1 /\
  (processed narrow.2 <= processed wide.2)%nat /\
  (forall entry, In entry (skippedRowsLocal wide.2) ->
     In entry (skippedRowsLocal narrow.2)).
Proof.
  intros Hs He Hs' He' Hss Hee narrow wide. subst narrow wide.
  unfold Array_filter. rewrite !filter_from_spec.
  cbn [fst snd processed skippedRowsLocal app Nat.add].
  assert (Himp : forall r : Row,
            keeps col (range_start sd) (range_end ed) r = true ->
            keeps col (range_start sd') (range_end ed') r = true).
  { intros r. rewrite (keeps_within _ _ _ _ _ _ Hs He),
      (keeps_within _ _ _ _ _ _ Hs' He').
    unfold within. destruct (parseDate (r !! col)) as [ [ [t|] ] |];
      try discriminate.
    rewrite !andb_true_iff, !Z.leb_le. lia. }
  split; [|split].
  - apply filter_sublist_filter. exact Himp.
  - apply sublist_length, filter_sublist_filter. exact Himp.
  - intros entry Hin. apply skipEntries_elem in Hin as (i & x & Hx & Hk & ->).
    apply skipEntries_elem. exists i, x. split; [assumption|].
    split; [|reflexivity].
    destruct (keeps col (range_start sd) (range_end ed) x) eqn:Hn;
      [|reflexivity].
    rewrite (Himp x Hn) in Hk. discriminate.
Qed.

(** X6: [transferToExcel] saves at most one file; the sheet it saves is
    never empty, holds rows of the input in their order, every one of them
    accepted by the callback, and the file is named after the two dates. *)
Theorem saved_sheet (rows : list Row) col w :
  let start := range_start (startDate (st w)) in
  let end_ := range_end (endDate (st w)) in
  let w' := exec (transferToExcel rows col) w in
  exists new,
    fx w' = (fx w ++ new)%list /\
    (length (List.filter
               (fun e => match e with SaveAs _ _ => true | _ => false end)
               new) <= 1)%nat /\
    forall sheet filename, In (SaveAs sheet filename) new ->
      sheet <> [] /\ sublist sheet rows /\
      (forall row, In row sheet -> keeps col start end_ row = true) /\
      filename =
        "filtered_data_" +:+ startDate (st w) +:+ "_to_" +:+ endDate (st w)
        +:+ ".xlsx".
Proof.
  intros start end_ w'.
  destruct (transferToExcel_exec rows col w) as (_ & _ & _ & _ & _ & _ & Hfx).
  fold start end_ w' in Hfx.
  set (kept := List.filter (keeps col start end_) rows) in *.
  destruct (length kept =? 0)%nat eqn:Hk.
  - exists []. split; [exact Hfx|]. split; [cbn; lia|]. intros ? ? [].
  - eexists. split; [exact Hfx|]. split; [cbn; lia|].
    intros sheet filename [Hin|[Hin|[]]]; [|discriminate Hin].
    injection Hin as <- <-. split; [|split; [|split]].
    + intros Hnil. rewrite Hnil in Hk. discriminate.
    + apply filter_sublist.
    + intros row Hrow. apply List.filter_In in Hrow as [_ Hrow]. exact Hrow.
    + reflexivity.
Qed.

(** X7: every outcome of the decoder clears the busy flag, whether the
    column is missing, no row is in range, the sheet is saved, or the
    decoder fails. *)
Theorem decoder_outcome_clears_busy result w :
  processing (st (exec (processCSVFile_complete result) w)) = false /\
  processing (st (exec processCSVFile_error w)) = false.
Proof.
  split; [|reflexivity].
  unfold exec, processCSVFile_complete, mbind, M_bind.
  cbn [setTotalRows modify get st dateColumn snd].
  destruct (not_ _); [reflexivity|].
  destruct (transferToExcel _ _ _) as [u w1]. reflexivity.
Qed.

(** X8: filtering the kept rows again, with the same column and range,
    keeps them all and skips none. *)
Theorem refilter (rows : list Row) col start end_ :
  let once :=
    Array_filter (keepRow col start end_) rows
      {| processed := 0; skipped := 0; skippedRowsLocal := [] |} in
  Array_filter (keepRow col start end_) once.1
    {| processed := 0; skipped := 0; skippedRowsLocal := [] |}
  = (once.1,
     {| processed := processed once.2; skipped := 0;
        skippedRowsLocal := [] |}).
Proof.
  cbn zeta. unfold Array_filter. rewrite !filter_from_spec.
  cbn [fst snd processed skipped skippedRowsLocal app Nat.add].
  rewrite filter_filter_same.
  assert (Hall : forall x,
            In x (List.filter (keeps col start end_) rows) ->
            keeps col start end_ x = true)
    by (intros x Hx; apply List.filter_In in Hx as [_ Hx]; exact Hx).
  rewrite (skipEntries_none _ _ _ Hall).
  rewrite <- (skipEntries_length (keeps col start end_) 0),
    (skipEntries_none _ _ _ Hall).
  reflexivity.
Qed.

(** X9: a row without a cell under the resolved column, or with an empty
    cell there, is skipped whatever the range, under its position plus 2. *)
Theorem missing_cell_skipped (rows : list Row) col w (i : nat) (row : Row) :
  rows !! i = Some row ->
  row !! col = None \/ row !! col = Some EmptyString ->
  let w' := exec (transferToExcel rows col) w in
  In {| rowNumber := i + 2;
        reason := "Date out of range or invalid format" |}
     (skippedRows (st w')) /\
  (processedCount (st w') < length rows)%nat.
Proof.
  intros Hrow Hcell w'.
  destruct (transferToExcel_exec rows col w) as (Hp & _ & Hrows & _).
  fold w' in Hp, Hrows. rewrite Hp, Hrows.
  set (start := range_start (startDate (st w))).
  set (end_ := range_end (endDate (st w))).
  assert (Hk : keeps col start end_ row = false).
  { unfold keeps, keepRow. destruct Hcell as [-> | ->]; reflexivity. }
  split.
  - apply skipEntries_elem. exists i, row. auto.
  - pose proof (filter_length_split (keeps col start end_) rows) as Hsplit.
    rewrite <- (skipEntries_length _ 0) in Hsplit.
    assert (Hin : In {| rowNumber := 0 + i + 2;
                        reason := "Date out of range or invalid format" |}
                    (skipEntries (keeps col start end_) 0 rows))
      by (apply skipEntries_elem; exists i, row; auto).
    destruct (skipEntries (keeps col start end_) 0 rows); [destruct Hin|].
    cbn [length] in Hsplit. lia.
Qed.

(** X10: the slash form is consulted only when [new Date] rejects the
    string and the string has exactly two slashes; otherwise [parseDate]
    returns what [new Date] gives when that is valid, and [null] when it
    is not. *)
Theorem fallback_only_for_two_slashes s :
  s <> EmptyString ->
  isValidDate (Date_of_string s) = true \/ count_char "/" s <> 2%nat ->
  parseDate (Some s) =
  if isValidDate (Date_of_string s) then Some (Date_of_string s) else None.
Proof.
  intros Hs H. apply falsy_false in Hs. unfold parseDate. rewrite Hs.
  destruct (isValidDate (Date_of_string s)) eqn:Hv; [reflexivity|].
  destruct H as [H|H]; [discriminate|].
  pose proof (split_length "/" s) as Hlen.
  destruct (split "/" s) as [|a [|b [|c [|? ?] ] ] ]; cbn in Hlen |- *;
    try reflexivity.
  lia.
Qed.

(** X12: the row numbers of the skip list increase strictly, so no two
    entries share a row number, and every entry gives the same reason. *)
Theorem skip_list_ordered (rows : list Row) col w :
  let skips := skippedRows (st (exec (transferToExcel rows col) w)) in
  (forall (i j : nat) a b,
     skips !! i = Some a -> skips !! j = Some b -> (i < j)%nat ->
     (rowNumber a < rowNumber b)%nat) /\
  NoDup (rowNumber <$> skips) /\
  (forall entry, In entry skips ->
     reason entry = "Date out of range or invalid format").
Proof.
  cbn zeta.
  destruct (transferToExcel_exec rows col w) as (_ & _ & Hrows & _).
  rewrite Hrows.
  set (p := keeps col (range_start (startDate (st w)))
              (range_end (endDate (st w)))).
  assert (Hinc := skipEntries_increasing p 0 rows).
  split; [exact Hinc|]. split.
  - apply NoDup_alt. intros i j n Hi Hj.
    apply list_lookup_fmap_Some in Hi as (a & -> & Ha).
    apply list_lookup_fmap_Some in Hj as (b & Hn & Hb).
    destruct (Nat.lt_trichotomy i j) as [Hlt|[Heq|Hgt]]; [|exact Heq|].
    + pose proof (Hinc i j a b Ha Hb Hlt). lia.
    + pose proof (Hinc j i b a Hb Ha Hgt). lia.
  - intros entry. apply skipEntries_reason.
Qed.

End MoreFilter.

(** ** Whole runs *)

(** Reduces the setters and the projections of the state, so that a state
    stays one record. *)
Ltac state_simpl :=
  cbn [setError setProcessing setProcessedCount setSkippedCount
       setSkippedRows setTotalRows setFile setDateColumn emit modify get
       mret M_ret fst snd st fx file startDate endDate dateColumn error
       processing processedCount skippedCount skippedRows totalRows
       processed skipped skippedRowsLocal data meta_fields negb].

Section Runs2.

Context {HD : HostDate} {HN : HostNumber}.

(** Whatever the state before, [processFile] leaves the counts at zero and
    the skip list empty. *)
Lemma processFile_resets w :
  let w' := exec processFile w in
  processedCount (st w') = 0%nat /\ skippedCount (st w') = 0%nat /\
  skippedRows (st w') = [] /\ totalRows (st w') = 0%nat.
Proof.
  destruct w as [ [f1 sd1 ed1 dc1 err1 pr1 pc1 sc1 sr1 tr1] fx1 ].
  cbn zeta.
  unfold exec, processFile, resetCountsAndData, validateDates, mbind, M_bind.
  state_simpl.
  destruct (falsy sd1 || falsy ed1); [state_simpl; auto|].
  destruct (date_lt _ _); [state_simpl; auto|].
  cbn [negb]. state_simpl.
  destruct f1 as [f|]; cbn zeta; [|state_simpl; auto].
  destruct (String.eqb _ "csv");
    [unfold processCSVFile, mbind, M_bind; state_simpl; auto|].
  destruct (String.eqb _ "xlsx" || String.eqb _ "xls");
    [unfold processExcelFile, mbind, M_bind|]; state_simpl; auto.
Qed.

(** From two states with the same inputs, [processFile] produces the same
    effects and states that differ at most in the busy flag. *)
Lemma processFile_same w1 w2 :
  file (st w1) = file (st w2) ->
  startDate (st w1) = startDate (st w2) ->
  endDate (st w1) = endDate (st w2) ->
  dateColumn (st w1) = dateColumn (st w2) ->
  exists new,
    fx (exec processFile w1) = (fx w1 ++ new)%list /\
    fx (exec processFile w2) = (fx w2 ++ new)%list /\
    st (exec (setProcessing false) (exec processFile w1))
    = st (exec (setProcessing false) (exec processFile w2)).
Proof.
  destruct w1 as [ [f1 sd1 ed1 dc1 err1 pr1 pc1 sc1 sr1 tr1] fx1 ].
  destruct w2 as [ [f2 sd2 ed2 dc2 err2 pr2 pc2 sc2 sr2 tr2] fx2 ].
  state_simpl. intros <- <- <- <-.
  unfold exec, processFile, resetCountsAndData, validateDates, mbind, M_bind.
  state_simpl.
  destruct (falsy sd1 || falsy ed1).
  { exists []. state_simpl. rewrite !app_nil_r. auto. }
  destruct (date_lt _ _).
  { exists []. state_simpl. rewrite !app_nil_r. auto. }
  cbn [negb]. state_simpl.
  destruct f1 as [f|]; cbn zeta.
  - destruct (String.eqb _ "csv").
    { eexists. unfold processCSVFile, mbind, M_bind. state_simpl. auto. }
    destruct (String.eqb _ "xlsx" || String.eqb _ "xls").
    { eexists. unfold processExcelFile, mbind, M_bind. state_simpl. auto. }
    exists []. state_simpl. rewrite !app_nil_r. auto.
  - exists []. state_simpl. rewrite !app_nil_r. auto.
Qed.

(** The completion handler does not look at the busy flag: from two
    states that differ at most in it, it ends in the same state and
    produces the same effects. *)
Lemma complete_same result w1 w2 :
  st (exec (setProcessing false) w1) = st (exec (setProcessing false) w2) ->
  st (exec (processCSVFile_complete result) w1)
  = st (exec (processCSVFile_complete result) w2) /\
  exists new,
    fx (exec (processCSVFile_complete result) w1) = (fx w1 ++ new)%list /\
    fx (exec (processCSVFile_complete result) w2) = (fx w2 ++ new)%list.
Proof.
  destruct w1 as [ [f1 sd1 ed1 dc1 err1 pr1 pc1 sc1 sr1 tr1] fx1 ].
  destruct w2 as [ [f2 sd2 ed2 dc2 err2 pr2 pc2 sc2 sr2 tr2] fx2 ].
  unfold exec at 1 2. state_simpl. intros [= <- <- <- <- <- <- <- <- <-].
  unfold exec, processCSVFile_complete, transferToExcel, Array_filter,
    mbind, M_bind.
  state_simpl.
  destruct (not_ _).
  - state_simpl. split; [reflexivity|]. exists []. rewrite !app_nil_r. auto.
  - destruct (filter_from _ _ _ _) as [kept l]. state_simpl.
    destruct (length kept =? 0)%nat; state_simpl.
    + split; [reflexivity|]. exists []. rewrite !app_nil_r. auto.
    + split; [reflexivity|]. rewrite <- !app_assoc. eexists.
      split; reflexivity.
Qed.

(** X13: a run, that is [processFile] followed by the decoder's
    completion, forgets the previous one: started from two states with the
    same file, dates and column name, it ends in the same state and
    produces the same effects, whatever error, counts and skip list the two
    states held. *)
Theorem run_forgets_previous result w1 w2 :
  file (st w1) = file (st w2) ->
  startDate (st w1) = startDate (st w2) ->
  endDate (st w1) = endDate (st w2) ->
  dateColumn (st w1) = dateColumn (st w2) ->
  st (exec (processCSVFile_complete result) (exec processFile w1))
  = st (exec (processCSVFile_complete result) (exec processFile w2)) /\
  exists new,
    fx (exec (processCSVFile_complete result) (exec processFile w1))
    = (fx w1 ++ new)%list /\
    fx (exec (processCSVFile_complete result) (exec processFile w2))
    = (fx w2 ++ new)%list.
Proof.
  intros Hf Hs He Hc.
  destruct (processFile_same w1 w2 Hf Hs He Hc) as (new1 & H1 & H2 & Hst).
  destruct (complete_same result _ _ Hst) as (Heq & new2 & H3 & H4).
  split; [exact Heq|].
  exists (new1 ++ new2)%list. rewrite H3, H4, H1, H2, <- !app_assoc. auto.
Qed.

End Runs2.

(** ** The load handler of the spreadsheet reader *)

Section Excel.

Context {HD : HostDate} {HN : HostNumber}.

Lemma mapHeaders_throw first :
  mapHeaders first = Throw <-> In OtherCell first.
Proof.
  induction first as [|cell first IH]; cbn.
  - split; [discriminate|tauto].
  - destruct cell; cbn.
    + destruct (mapHeaders first).
      * split; [discriminate|]. intros [H|H]; [discriminate|].
        apply IH in H. discriminate.
      * split; [|reflexivity]. intros _. right. apply IH. reflexivity.
    + destruct (mapHeaders first).
      * split; [discriminate|]. intros [H|H]; [discriminate|].
        apply IH in H. discriminate.
      * split; [|reflexivity]. intros _. right. apply IH. reflexivity.
    + split; auto.
Qed.

Lemma mapHeaders_text names :
  mapHeaders (TextCell <$> names)
  = Normal ((fun s => Some (toLowerCase (trim s))) <$> names).
Proof.
  induction names as [|s names IH]; cbn; [reflexivity|].
  cbn in IH. rewrite IH. reflexivity.
Qed.

Lemma mapHeaders_app first1 first2 h1 h2 :
  mapHeaders first1 = Normal h1 -> mapHeaders first2 = Normal h2 ->
  mapHeaders (first1 ++ first2)%list = Normal (h1 ++ h2)%list.
Proof.
  revert h1. induction first1 as [|cell first1 IH]; intros h1; cbn.
  - intros [= <-] H. exact H.
  - destruct cell; try discriminate;
      destruct (mapHeaders first1) as [h|] eqn:Hm; try discriminate;
      intros [= <-] H2; rewrite (IH h eq_refl H2); reflexivity.
Qed.

Lemma findHeader_text normalized headers :
  findHeader normalized (Some <$> headers)
  = Normal (List.find
              (fun header =>
                 String.eqb (toLowerCase (trim header)) normalized)
              headers).
Proof.
  induction headers as [|h headers IH]; cbn; [reflexivity|].
  destruct (String.eqb _ _); [reflexivity|exact IH].
Qed.

Lemma findHeader_hole normalized before after :
  (forall h, In h before -> toLowerCase (trim h) <> normalized) ->
  findHeader normalized ((Some <$> before) ++ None :: after)%list = Throw.
Proof.
  induction before as [|h before IH]; intros Hno; cbn; [reflexivity|].
  destruct (String.eqb_spec (toLowerCase (trim h)) normalized) as [Heq|_].
  - destruct (Hno h); cbn; auto.
  - apply IH. intros x Hx. apply Hno. cbn. auto.
Qed.

Lemma is_space_lower c : Ascii.is_space (lower_char c) = Ascii.is_space c.
Proof. destruct c as [ [] [] [] [] [] [] [] [] ]; reflexivity. Qed.

Lemma trimStart_lower s : trimStart (toLowerCase s) = toLowerCase (trimStart s).
Proof.
  induction s as [|c s IH]; cbn; [reflexivity|].
  rewrite is_space_lower. destruct (Ascii.is_space c); [exact IH|reflexivity].
Qed.

Lemma trimEnd_lower s : trimEnd (toLowerCase s) = toLowerCase (trimEnd s).
Proof.
  induction s as [|c s IH]; cbn [toLowerCase trimEnd]; [reflexivity|].
  rewrite IH, is_space_lower.
  destruct (trimEnd s); cbn [toLowerCase]; [|reflexivity].
  destruct (Ascii.is_space c); reflexivity.
Qed.

(** A header in normal form is its own normal form. *)
Lemma normal_form_idempotent s :
  toLowerCase (trim (toLowerCase (trim s))) = toLowerCase (trim s).
Proof.
  unfold trim at 1. rewrite trimStart_lower, trimEnd_lower.
  fold (trim (trim s)). rewrite trim_idempotent, toLowerCase_idempotent.
  reflexivity.
Qed.

Lemma assign_same h v (obj : Row) : assign h v obj !! h = v.
Proof.
  destruct v; cbn; [apply lookup_insert_eq|apply lookup_delete_eq].
Qed.

Lemma assign_other h h' v (obj : Row) :
  h <> h' -> assign h v obj !! h' = obj !! h'.
Proof.
  intros Hne. destruct v; cbn;
    [apply lookup_insert_ne|apply lookup_delete_ne]; exact Hne.
Qed.

Lemma forEachHeader_absent headers index row (obj : Row) h :
  ~ In (Some h) headers ->
  forEachHeader headers index row obj !! h = obj !! h.
Proof.
  revert index obj. induction headers as [|header headers IH];
    intros index obj Hno; cbn; [reflexivity|].
  rewrite IH by (intros Hin; apply Hno; cbn; auto).
  destruct header as [h'|]; [|reflexivity].
  apply assign_other. intros ->. apply Hno. cbn. auto.
Qed.

Lemma forEachHeader_lookup headers index row (obj : Row) (i : nat) h :
  headers !! i = Some (Some h) ->
  (forall j : nat, (i < j)%nat -> headers !! j <> Some (Some h)) ->
  forEachHeader headers index row obj !! h = mjoin (row !! (index + i)%nat).
Proof.
  revert index obj i. induction headers as [|header headers IH];
    intros index obj i; [discriminate|].
  destruct i as [|i]; cbn [lookup list_lookup forEachHeader].
  - intros [= ->] Hlast.
    rewrite forEachHeader_absent.
    + rewrite Nat.add_0_r. apply assign_same.
    + intros Hin. apply list_elem_of_In, list_elem_of_lookup in Hin as [j Hj].
      apply (Hlast (S j)); [lia|exact Hj].
  - intros Hi Hlast.
    rewrite (IH (S index) _ i Hi).
    + f_equal. f_equal. lia.
    + intros j Hij. apply (Hlast (S j)). lia.
Qed.

(** X16: on a sheet without rows, or with a first row holding a cell that
    is not a string, the load handler throws before it changes anything:
    no count, no message, and the busy flag keeps its value. *)
Theorem excel_bad_header worksheet w :
  worksheet = NoRows \/
  (exists first rest, worksheet = Rows first rest /\ In OtherCell first) ->
  processExcelFile_onload worksheet w = (Throw, w).
Proof.
  intros [-> | (first & rest & -> & Hin)]; [reflexivity|].
  apply mapHeaders_throw in Hin.
  unfold processExcelFile_onload, mbind, E_bind, mret, E_ret, completion.
  rewrite Hin. reflexivity.
Qed.

(** X17: an empty header cell to the left of every header that would
    match makes the load handler throw once the row total is set: no
    message is set and the busy flag is not cleared. *)
Theorem excel_hole_before_match before more rest w :
  ~ In OtherCell more ->
  (forall name, In name before ->
     toLowerCase (trim name) <> toLowerCase (trim (dateColumn (st w)))) ->
  processExcelFile_onload
    (Rows ((TextCell <$> before) ++ NoCell :: more)%list rest) w
  = (Throw, exec (setTotalRows (length rest)) w).
Proof.
  intros Hmore Hnone.
  destruct (mapHeaders more) as [hmore|] eqn:Hm;
    [|destruct Hmore; apply mapHeaders_throw; exact Hm].
  assert (Hmap : mapHeaders ((TextCell <$> before) ++ NoCell :: more)%list
                 = Normal ((Some <$> ((fun s => toLowerCase (trim s))
                                        <$> before))
                           ++ None :: hmore)%list).
  { rewrite <- list_fmap_compose.
    apply mapHeaders_app; [apply mapHeaders_text|].
    cbn. rewrite Hm. reflexivity. }
  unfold processExcelFile_onload, mbind, E_bind, mret, E_ret, completion,
    lift. rewrite Hmap. cbn [setTotalRows modify get st dateColumn].
  rewrite findHeader_hole.
  - unfold exec. cbn. rewrite length_fmap. reflexivity.
  - intros h Hin. apply in_map_iff in Hin as (name & <- & Hname).
    rewrite normal_form_idempotent. apply Hnone. exact Hname.
Qed.

(** X18: when every cell of the first row is a string, the load handler
    ends normally and does what the CSV completion handler does on the
    table with the headers in normal form, except for the wording of the
    column-not-found message. *)
Theorem excel_like_csv names rest w :
  let headers := (fun s => toLowerCase (trim s)) <$> names in
  let table :=
    {| data := rowObject (Some <$> headers) <$> rest;
       meta_fields := headers |} in
  (not_ (findColumn headers (dateColumn (st w))) = false ->
   processExcelFile_onload (Rows (TextCell <$> names) rest) w
   = (Normal tt, exec (processCSVFile_complete table) w)) /\
  (not_ (findColumn headers (dateColumn (st w))) = true ->
   processExcelFile_onload (Rows (TextCell <$> names) rest) w
   = (Normal tt,
      exec (setProcessing false)
        (exec (setError ("The Excel file does not contain a " +:+ quote
                         +:+ dateColumn (st w) +:+ quote
                         +:+ " column. Please check the column name."))
           (exec (setTotalRows (length rest)) w))) /\
   st (exec (processCSVFile_complete table) w)
   = st (exec (setProcessing false)
           (exec (setError ("The CSV does not contain a " +:+ quote
                            +:+ dateColumn (st w) +:+ quote
                            +:+ " column. Please check the column name."))
              (exec (setTotalRows (length rest)) w)))).
Proof.
  intros headers table.
  assert (Hmap : mapHeaders (TextCell <$> names) = Normal (Some <$> headers)).
  { rewrite mapHeaders_text. subst headers. rewrite <- list_fmap_compose.
    reflexivity. }
  assert (Hfind : findHeader (toLowerCase (trim (dateColumn (st w))))
                    (Some <$> headers)
                  = Normal (findColumn headers (dateColumn (st w))))
    by apply findHeader_text.
  split; intros Hnot.
  - unfold processExcelFile_onload, mbind, E_bind, mret, E_ret, completion,
      lift. rewrite Hmap. cbn [setTotalRows modify get st dateColumn].
    rewrite Hfind, Hnot.
    unfold exec, processCSVFile_complete, mbind, M_bind.
    cbn [setTotalRows modify get st dateColumn data meta_fields table].
    rewrite Hnot.
    destruct (transferToExcel _ _ _) as [u w1]. destruct u. reflexivity.
  - split.
    + unfold processExcelFile_onload, mbind, E_bind, mret, E_ret, completion,
        lift. rewrite Hmap. cbn [setTotalRows modify get st dateColumn].
      rewrite Hfind, Hnot. unfold exec. cbn. rewrite length_fmap.
      reflexivity.
    + unfold exec, processCSVFile_complete, mbind, M_bind.
      cbn [setTotalRows modify get st dateColumn data meta_fields table].
      rewrite Hnot. cbn. rewrite length_fmap. reflexivity.
Qed.

(** X19: in a row object the cell of a column is found under the
    column's header in normal form, provided no column further right has
    the same header; a row too short to reach the column, or with an
    empty cell there, has no value under the header. *)
Theorem excel_row_lookup headers row (i : nat) h :
  headers !! i = Some (Some h) ->
  (forall j : nat, (i < j)%nat -> headers !! j <> Some (Some h)) ->
  rowObject headers row !! h = mjoin (row !! i).
Proof.
  intros Hi Hlast. unfold rowObject.
  rewrite (forEachHeader_lookup headers 0 row ∅ i h Hi Hlast).
  reflexivity.
Qed.

End Excel.

(** ** The summary invariant *)

Section Invariant.

Context {HD : HostDate} {HN : HostNumber}.

Lemma transferToExcel_consistent rows col w :
  consistent (st (exec (transferToExcel rows col) w)).
Proof.
  unfold consistent.
  destruct (transferToExcel_exec rows col w) as (_ & Hsk & Hrows & _).
  rewrite Hsk, Hrows, skipEntries_length. reflexivity.
Qed.

Lemma complete_consistent result w :
  consistent (st w) ->
  consistent (st (exec (processCSVFile_complete result) w)).
Proof.
  intros Hc. unfold exec, processCSVFile_complete, mbind, M_bind.
  cbn [setTotalRows modify get st dateColumn snd].
  destruct (not_ _); [exact Hc|].
  match goal with
  | |- context [transferToExcel ?rows ?col ?w0] =>
      pose proof (transferToExcel_consistent rows col w0) as Ht;
      unfold exec in Ht; destruct (transferToExcel rows col w0) as [u w1]
  end.
  exact Ht.
Qed.

(** X14: every handler keeps the summary consistent: if the skip count
    equals the length of the skip list before, it does after
    [processFile], after either outcome of the decoder, after either
    outcome of the reader (a throw included), and after a change of the
    file or of the column name. *)
Theorem summary_stays_consistent w :
  consistent (st w) ->
  consistent (st (exec processFile w)) /\
  (forall result, consistent (st (exec (processCSVFile_complete result) w))) /\
  consistent (st (exec processCSVFile_error w)) /\
  (forall worksheet, consistent (st (processExcelFile_onload worksheet w).2)) /\
  consistent (st (exec processExcelFile_onerror w)) /\
  (forall chosen, consistent (st (exec (handleFileChange chosen) w))) /\
  (forall value, consistent (st (exec (handleDateColumnChange value) w))).
Proof.
  intros Hc.
  refine (conj _ (conj _ (conj _ (conj _ (conj _ (conj _ _)))))).
  - destruct (processFile_resets w) as (_ & Hs & Hr & _).
    unfold consistent. rewrite Hs, Hr. reflexivity.
  - intros result. apply complete_consistent. exact Hc.
  - exact Hc.
  - intros worksheet.
    unfold processExcelFile_onload, mbind, E_bind, mret, E_ret, completion,
      lift, throw.
    destruct worksheet as [|first rest]; [exact Hc|].
    destruct (mapHeaders first) as [headers|]; [|exact Hc].
    cbn [setTotalRows modify get st dateColumn].
    destruct (findHeader _ headers) as [actual|]; [|exact Hc].
    destruct (not_ actual); [exact Hc|].
    match goal with
    | |- context [transferToExcel ?rows ?col ?w0] =>
        pose proof (transferToExcel_consistent rows col w0) as Ht;
        unfold exec in Ht; destruct (transferToExcel rows col w0) as [u w1]
    end.
    exact Ht.
  - exact Hc.
  - intros chosen. reflexivity.
  - intros value. exact Hc.
Qed.

End Invariant.

(** ** The slash form with a full year *)

Section SlashFullYear.

Context {HD : HostDate} {HN : HostNumber} {HL : HostNumberLaws HN}.

(** X11: a slash-delimited value that the general parser rejects, with a
    month 1..12, a day of that month and a year of at most four digits,
    normalises to local midnight of that day of the calendar, in a zone
    that has that local midnight at an offset of at most a day; the year
    counts by its value, so that a year below 100, however it is written,
    lies in the 2000s. *)
Theorem slash_calendar_day s ms ds ys m d y :
  Date_parse s = None ->
  split "/" s = [ms; ds; ys] ->
  DecimalDigits ms = Some m ->
  DecimalDigits ds = Some d ->
  DecimalDigits ys = Some y ->
  (String.length ys <= 4)%nat ->
  1 <= m <= 12 ->
  1 <= d <= DaysInMonth (if y <? 100 then y + 2000 else y) m ->
  let local :=
    MakeDate (MakeDay (if y <? 100 then y + 2000 else y) (m - 1) d)
      (MakeTime 0 0 0 0) in
  Z.abs (LocalTZA local false) <= msPerDay ->
  LocalTime (UTC local) = local ->
  exists t,
    parseDate (Some s) = Some (mkDate (Some t)) /\
    civil (LocalTime t) = (if y <? 100 then y + 2000 else y, m, d) /\
    TimeWithinDay (LocalTime t) = 0.
Proof.
  intros Hgen Hsplit Hm Hd Hy Ly Bm Bd local Htz Hback. subst local.
  pose proof (length_digits_bound _ _ 4 Hy Ly) as By.
  change (10 ^ Z.of_nat 4) with 10000 in By.
  set (yr := if y <? 100 then y + 2000 else y) in *.
  assert (Hyr : 100 <= yr <= 9999)
    by (subst yr; destruct (Z.ltb_spec y 100); lia).
  pose proof (DaysInMonth_pos yr m Bm) as Hdim.
  rewrite (parseDate_slash s ms ds ys m d y) by
    (try assumption; unfold safe; cbn; lia).
  fold yr. rewrite MakeDay_four_digits by (assumption || lia).
  cbn [mbind option_bind].
  eexists. split; [reflexivity|]. rewrite Hback. split.
  - apply civil_MakeDay; assumption.
  - unfold TimeWithinDay, MakeDate. change (MakeTime 0 0 0 0) with 0.
    rewrite Z.add_0_r. apply Z.mod_mul. discriminate.
Qed.

End SlashFullYear.

(** ** The busy flag, the alert and the size of the range *)

Section MoreRuns.

Context {HD : HostDate} {HN : HostNumber}.

(** X20: the load handler clears the busy flag exactly when it ends
    normally; when it throws, the flag, the error message and the effects
    are as they were. *)
Theorem excel_busy_flag worksheet w :
  let w' := (processExcelFile_onload worksheet w).2 in
  match (processExcelFile_onload worksheet w).1 with
  | Normal _ => processing (st w') = false
  | Throw =>
      processing (st w') = processing (st w) /\
      error (st w') = error (st w) /\
      fx w' = fx w
  end.
Proof.
  cbn zeta.
  unfold processExcelFile_onload, mbind, E_bind, mret, E_ret, completion,
    lift, throw.
  destruct worksheet as [|first rest]; [cbn; auto|].
  destruct (mapHeaders first) as [headers|]; [|cbn; auto].
  cbn [setTotalRows modify get st dateColumn].
  destruct (findHeader _ headers) as [actual|]; [|cbn; auto].
  destruct (not_ actual); [reflexivity|].
  destruct (transferToExcel _ _ _) as [u w1]. reflexivity.
Qed.

(** X21: when [transferToExcel] saves a file it then shows one alert, and
    the alert gives the processed and skipped counts that the summary
    shows; the sheet has as many rows as the processed count. *)
Theorem alert_matches_summary (rows : list Row) col w :
  let w' := exec (transferToExcel rows col) w in
  fx w' = fx w \/
  exists sheet filename,
    fx w' =
      (fx w ++
       [SaveAs sheet filename;
        Alert ("Processed Rows: " +:+ pretty (processedCount (st w'))
               +:+ newline +:+ "Skipped Rows: "
               +:+ pretty (skippedCount (st w')))])%list /\
    length sheet = processedCount (st w') /\
    (0 < processedCount (st w'))%nat.
Proof.
  intros w'.
  destruct (transferToExcel_exec rows col w)
    as (Hp & Hsk & _ & _ & _ & _ & Hfx).
  fold w' in Hp, Hsk, Hfx. rewrite Hfx, Hp, Hsk.
  destruct (length _ =? 0)%nat eqn:Hk.
  - left. apply app_nil_r.
  - right. eexists _, _. split; [reflexivity|]. split; [reflexivity|].
    apply Nat.eqb_neq in Hk. lia.
Qed.

(** X22: with both dates valid and local time at the end date not
    before local time at the start date, the range runs from the instant
    the zone gives to the first millisecond of a local day to the instant
    it gives to the last millisecond of a local day, across a whole
    number of local days, at least one; in time it lasts that many days
    less what the offset of the zone gains between its two ends, so it is
    a whole number of days when the offset is the same at both ends. *)
Theorem range_spans_whole_days sd ed ts te s e :
  DateValue (Date_of_string sd) = Some ts ->
  DateValue (Date_of_string ed) = Some te ->
  LocalTime ts <= LocalTime te ->
  DateValue (range_start sd) = Some s ->
  DateValue (range_end ed) = Some e ->
  exists days first last,
    1 <= days /\
    s = UTC first /\ TimeWithinDay first = 0 /\
    e = UTC last /\ TimeWithinDay last = msPerDay - 1 /\
    last - first + 1 = days * msPerDay /\
    e - s + 1
    = days * msPerDay - (LocalTZA last false - LocalTZA first false).
Proof.
  intros Hts Hte Hle Hs He.
  destruct (range_start_startOfDay _ _ Hs) as (t0 & Ht0 & ->).
  destruct (range_end_endOfDay _ _ He) as (t1 & Ht1 & ->).
  assert (t0 = ts) as -> by congruence.
  assert (t1 = te) as -> by congruence.
  pose proof (localDay_mono ts te Hle) as Hd.
  exists (localDay te - localDay ts + 1),
         (MakeDate (localDay ts) (MakeTime 0 0 0 0)),
         (MakeDate (localDay te) (MakeTime 23 59 59 999)).
  split; [lia|]. split; [reflexivity|]. split.
  { unfold TimeWithinDay, MakeDate. change (MakeTime 0 0 0 0) with 0.
    rewrite Z.add_0_r. apply Z.mod_mul. discriminate. }
  split; [reflexivity|]. split.
  { unfold TimeWithinDay, MakeDate.
    change (MakeTime 23 59 59 999) with (msPerDay - 1).
    rewrite Z.add_comm, Z.mod_add by discriminate. reflexivity. }
  unfold startOfDay, endOfDay, UTC, MakeDate.
  change (MakeTime 0 0 0 0) with 0.
  change (MakeTime 23 59 59 999) with (msPerDay - 1).
  split; lia.
Qed.

End MoreRuns.

(** ** More runs *)

Section MoreScenarios.

Import Engine Scenario MoreInputs.

Lemma file_type_dispatch_witness :
  startDate (st january) <> EmptyString /\
  endDate (st january) <> EmptyString /\
  file (st january) = Some {| name := "visits.csv" |} /\
  fx (exec (processFile (HD := browser)) january)
  = [PapaParse {| name := "visits.csv" |}].
Proof.
  split; [discriminate|]. split; [discriminate|]. split; [reflexivity|].
  destruct (file_type_dispatch (HD := browser) january
              {| name := "visits.csv" |}
              ltac:(discriminate) ltac:(discriminate) eq_refl eq_refl)
    as (Hcsv & _).
  destruct (Hcsv eq_refl) as (Hfx & _). exact Hfx.
Defined.

Lemma file_type_extension_witness :
  has_char "." "CSV" = false /\
  toLowerCase (List.last (split "." "report.2024.CSV") EmptyString) = "csv".
Proof.
  split; [reflexivity|].
  exact (proj1 (file_type_extension "report.2024" "CSV" eq_refl)).
Defined.

Lemma enabled_button_witness :
  buttonDisabled (st january) = false /\
  processing (st (exec (processFile (HD := browser)) january)) = true.
Proof.
  split; [reflexivity|].
  destruct (enabled_button (HD := browser) january eq_refl)
    as [(f & _ & _ & Hp & _)|(_ & Hp & _)].
  - exact Hp.
  - discriminate Hp.
Defined.

Lemma range_dates_kept_witness :
  DateValue (Date_of_string (HD := NewYorkDate) "2024-03-10")
  = Some 1710028800000 /\
  DateValue (Date_of_string (HD := NewYorkDate) "2024-03-11")
  = Some 1710115200000 /\
  in_own_day (HD := NewYorkDate) 1710028800000 /\
  in_own_day (HD := NewYorkDate) 1710115200000 /\
  DateValue (range_start (HD := NewYorkDate) "2024-03-10")
  = Some 1709960400000 /\
  DateValue (range_end (HD := NewYorkDate) "2024-03-11")
  = Some 1710129599999 /\
  keeps (HD := NewYorkDate) (HN := IntNumber) "Date"
    (range_start (HD := NewYorkDate) "2024-03-10")
    (range_end (HD := NewYorkDate) "2024-03-11")
    (row "Date" "2024-03-11") = true.
Proof.
  assert (Hs : in_own_day (HD := NewYorkDate) 1710028800000)
    by (split; apply Z.leb_le; vm_compute; reflexivity).
  assert (He : in_own_day (HD := NewYorkDate) 1710115200000)
    by (split; apply Z.leb_le; vm_compute; reflexivity).
  split; [reflexivity|]. split; [reflexivity|].
  split; [exact Hs|]. split; [exact He|].
  split; [reflexivity|]. split; [reflexivity|].
  apply (range_dates_kept (HD := NewYorkDate) (HN := IntNumber)
           "Date" "2024-03-10" "2024-03-11" 1709960400000 1710129599999
           1710028800000 1710115200000 (row "Date" "2024-03-11")
           ltac:(discriminate) ltac:(discriminate) eq_refl eq_refl
           ltac:(apply Z.leb_le; reflexivity) Hs He eq_refl eq_refl).
  right. reflexivity.
Defined.

Lemma wider_range_witness :
  DateValue (range_end (HD := browser) "2024-01-31") = Some 1706745599999 /\
  DateValue (range_end (HD := browser) "2024-02-29") = Some 1709251199999 /\
  sublist
    (Array_filter
       (keepRow (HD := browser) (HN := IntNumber) "Date"
          (range_start (HD := browser) "2024-01-01")
          (range_end (HD := browser) "2024-01-31")) rowsA empty_locals).1
    (Array_filter
       (keepRow (HD := browser) (HN := IntNumber) "Date"
          (range_start (HD := browser) "2024-01-01")
          (range_end (HD := browser) "2024-02-29")) rowsA empty_locals).1.
Proof.
  split; [reflexivity|]. split; [reflexivity|].
  exact (proj1
           (wider_range (HD := browser) (HN := IntNumber) rowsA "Date"
              "2024-01-01" "2024-01-31" "2024-01-01" "2024-02-29"
              1704067200000 1706745599999 1704067200000 1709251199999
              eq_refl eq_refl eq_refl eq_refl
              ltac:(apply Z.leb_le; reflexivity)
              ltac:(apply Z.leb_le; reflexivity))).
Defined.

Lemma missing_cell_skipped_witness :
  [row "Name" "Ann"] !! 0%nat = Some (row "Name" "Ann") /\
  row "Name" "Ann" !! "Date" = None /\
  In {| rowNumber := 2; reason := "Date out of range or invalid format" |}
     (skippedRows
        (st (exec (transferToExcel (HD := browser) (HN := IntNumber)
                     [row "Name" "Ann"] "Date") january))).
Proof.
  split; [reflexivity|]. split; [reflexivity|].
  exact (proj1
           (missing_cell_skipped (HD := browser) (HN := IntNumber)
              [row "Name" "Ann"] "Date" january 0 (row "Name" "Ann")
              eq_refl (or_introl eq_refl))).
Defined.

Lemma fallback_only_for_two_slashes_witness :
  count_char "/" "15/01" = 1%nat /\
  parseDate (HD := iso) (HN := IntNumber) (Some "15/01") = None.
Proof.
  split; [reflexivity|].
  rewrite (fallback_only_for_two_slashes (HD := iso) (HN := IntNumber)
             "15/01").
  - vm_compute. reflexivity.
  - discriminate.
  - right. vm_compute. discriminate.
Defined.

Lemma slash_calendar_day_witness :
  Date_parse (HostDate := NewYorkDate) "3/10/2024" = None /\
  split "/" "3/10/2024" = ["3"; "10"; "2024"] /\
  LocalTime (HD := NewYorkDate)
    (UTC (HD := NewYorkDate) (MakeDate (MakeDay 2024 (3 - 1) 10) 0))
  = MakeDate (MakeDay 2024 (3 - 1) 10) 0 /\
  exists t,
    parseDate (HD := NewYorkDate) (HN := IntNumber) (Some "3/10/2024")
    = Some (mkDate (Some t)) /\
    civil (LocalTime (HD := NewYorkDate) t) = (2024, 3, 10).
Proof.
  split; [reflexivity|]. split; [reflexivity|]. split; [reflexivity|].
  destruct (slash_calendar_day (HD := NewYorkDate) (HL := IntNumber_laws)
              "3/10/2024" "3" "10" "2024" 3 10 2024
              eq_refl eq_refl eq_refl eq_refl eq_refl
              ltac:(vm_compute; lia)
              ltac:(split; apply Z.leb_le; reflexivity)
              ltac:(split; apply Z.leb_le; reflexivity)
              ltac:(apply Z.leb_le; reflexivity) eq_refl)
    as (t & Hp & Hc & _).
  exists t. split; [exact Hp|exact Hc].
Defined.

Lemma run_forgets_previous_witness :
  processedCount (st after_A) = 1%nat /\
  processedCount (st january) = 0%nat /\
  st (exec (processCSVFile_complete (HD := browser) (HN := IntNumber) resultE)
        (exec (processFile (HD := browser)) after_A))
  = st (exec (processCSVFile_complete (HD := browser) (HN := IntNumber)
               resultE)
          (exec (processFile (HD := browser)) january)).
Proof.
  split; [vm_compute; reflexivity|]. split; [reflexivity|].
  apply (run_forgets_previous (HD := browser) (HN := IntNumber) resultE
           after_A january); vm_compute; reflexivity.
Defined.

Lemma summary_stays_consistent_witness :
  consistent (st after_A) /\
  consistent
    (st (exec (processCSVFile_complete (HD := browser) (HN := IntNumber)
                 resultE) after_A)).
Proof.
  assert (Hc : consistent (st after_A)) by (vm_compute; reflexivity).
  split; [exact Hc|].
  destruct (summary_stays_consistent (HD := browser) (HN := IntNumber)
              after_A Hc) as (_ & Hr & _).
  apply Hr.
Defined.

Lemma excel_bad_header_witness :
  In OtherCell [TextCell "Name"; OtherCell] /\
  processExcelFile_onload (HD := browser) (HN := IntNumber)
    (Rows [TextCell "Name"; OtherCell] [[Some "Ann"; Some "2024-01-15"]])
    january
  = (Throw, january).
Proof.
  assert (Hin : In OtherCell [TextCell "Name"; OtherCell])
    by (right; left; reflexivity).
  split; [exact Hin|].
  apply (excel_bad_header (HD := browser) (HN := IntNumber)).
  right. eexists _, _. split; [reflexivity|exact Hin].
Defined.

Lemma excel_hole_before_match_witness :
  ~ In OtherCell [TextCell "Date"] /\
  processExcelFile_onload (HD := browser) (HN := IntNumber)
    (Rows [TextCell "Name"; NoCell; TextCell "Date"]
       [[Some "Ann"; None; Some "2024-01-15"]])
    january
  = (Throw, exec (setTotalRows 1) january).
Proof.
  assert (Hno : ~ In OtherCell [TextCell "Date"])
    by (intros [H|[]]; discriminate H).
  split; [exact Hno|].
  apply (excel_hole_before_match (HD := browser) (HN := IntNumber)
           ["Name"] [TextCell "Date"]
           [[Some "Ann"; None; Some "2024-01-15"]] january Hno).
  intros name [<-|[]]. discriminate.
Defined.

Lemma excel_row_lookup_witness :
  [Some "name"; Some "date"] !! 1%nat = Some (Some "date") /\
  rowObject [Some "name"; Some "date"] [Some "Ann"; Some "2024-01-15"]
    !! "date"
  = Some "2024-01-15".
Proof.
  split; [reflexivity|].
  apply (excel_row_lookup [Some "name"; Some "date"]
           [Some "Ann"; Some "2024-01-15"] 1 "date" eq_refl).
  intros [|[|j]] Hj; cbn; [lia|lia|discriminate].
Defined.

Lemma range_spans_whole_days_witness :
  DateValue (range_start (HD := NewYorkDate) "2024-03-10")
  = Some 1709960400000 /\
  DateValue (range_end (HD := NewYorkDate) "2024-03-11")
  = Some 1710129599999 /\
  exists days first last,
    1 <= days /\
    last - first + 1 = days * msPerDay /\
    1710129599999 - 1709960400000 + 1
    = days * msPerDay
      - (LocalTZA (HostDate := NewYorkDate) last false
         - LocalTZA (HostDate := NewYorkDate) first false).
Proof.
  split; [reflexivity|]. split; [reflexivity|].
  destruct (range_spans_whole_days (HD := NewYorkDate)
              "2024-03-10" "2024-03-11" 1710028800000 1710115200000
              1709960400000 1710129599999 eq_refl eq_refl
              ltac:(apply Z.leb_le; reflexivity) eq_refl eq_refl)
    as (days & first & last & Hd & _ & _ & _ & _ & Hl & He).
  exists days, first, last. split; [exact Hd|]. split; assumption.
Defined.

(** The sheet of scenario A, with a padded header, a short row and a row
    with an empty date cell: one row kept, rows 3, 4 and 5 skipped. *)
Example excel_scenario :
  let w' := (processExcelFile_onload (HD := browser) (HN := IntNumber) sheetA
               (initial "2024-01-01" "2024-01-31" "DATE")).2 in
  totalRows (st w') = 4%nat /\
  processedCount (st w') = 1%nat /\
  rowNumber <$> skippedRows (st w') = [3%nat; 4%nat; 5%nat] /\
  processing (st w') = false.
Proof. vm_compute. repeat split. Qed.

End MoreScenarios.
